(** * asr-playground: the recording-to-scoring pipeline of [app.py]

    A shallow embedding of the logic of [app.py] (the word-level accuracy
    model of [TranscriptionWidget], the two transcription workers
    [GroqWorker] and [DeepgramWorker], and the event handlers of
    [MainWindow]) together with the properties the specification states
    about them.

    Modelling conventions.
    - Python [int] is [Z]; Python [float] is idealised as an exact rational
      [Q] (the only float operations of the program are one subtraction of
      clock readings, one division and one multiplication by 100).
    - Python [str] is [string]; a character is a code point below 256.
    - A Python exception is a value of [exn]; code that can raise returns
      a [result].
    - Qt widgets are records holding the fields the handlers read and
      write. Formatted label texts with a numeric part are kept
      structured ([speed_text], [accuracy_text]) instead of being printed
      through [%.2f] and [%.1f].
    - Threads are modelled by the events they deliver to the GUI thread
      and by a log of the threads the handlers start. *)

From Stdlib Require Import String Ascii List ZArith QArith Bool Lia.
Import ListNotations.
Set Warnings "-register-all".
Open Scope string_scope.
Open Scope Z_scope.

(* ================================================================= *)
(** ** Exceptions and fallible computations *)

Module Py.

Inductive exn_class :=
| OSError | RequestException | JSONDecodeError | AttributeError
| TypeError | IndexError | KeyError | ZeroDivisionError.

(** An exception object: its class and [str(e)]. *)
Record exn := Exn { exn_cls : exn_class; exn_str : string }.

Inductive result (A : Type) :=
| Ok (a : A)
| Raise (e : exn).
Arguments Ok {A} a.
Arguments Raise {A} e.

Definition bind {A B} (m : result A) (k : A -> result B) : result B :=
  match m with
  | Ok a => k a
  | Raise e => Raise e
  end.

Notation "x <- m ;; k" := (bind m (fun x => k))
  (at level 61, m at next level, right associativity).

(** [a / b] on Python ints: true division, raising on a zero divisor. *)
Definition truediv (a b : Z) : result Q :=
  if b =? 0 then Raise (Exn ZeroDivisionError "division by zero")
  else Ok (inject_Z a / inject_Z b)%Q.

(** [sum(xs)]: left-to-right from 0. *)
Definition sum (xs : list Z) : Z := fold_left Z.add xs 0.

(** [len(xs)]. *)
Definition len {A} (xs : list A) : Z := Z.of_nat (length xs).

(** *** Strings *)

(** [c.isspace()] for code points below 256: TAB..CR, FS..US, SPACE, NEL
    and NBSP. This is the set [str.split()] and [str.strip()] use when
    called without argument. *)
Definition isspace (c : ascii) : bool :=
  let n := N_of_ascii c in
  ((9 <=? n) && (n <=? 13) || (28 <=? n) && (n <=? 32)
   || (n =? 133) || (n =? 160))%N.

(** [s.split()]: the maximal runs of non-whitespace characters, in order.
    [cur] is the run being read. *)
Fixpoint split_from (cur : string) (s : string) : list string :=
  match s with
  | EmptyString => if (cur =? "")%string then [] else [cur]
  | String c r =>
      if isspace c
      then (if (cur =? "")%string then split_from "" r
            else cur :: split_from "" r)
      else split_from (cur ++ String c "") r
  end.

Definition split (s : string) : list string := split_from "" s.

Fixpoint lstrip (s : string) : string :=
  match s with
  | EmptyString => EmptyString
  | String c r => if isspace c then lstrip r else s
  end.

Fixpoint rstrip (s : string) : string :=
  match s with
  | EmptyString => EmptyString
  | String c r =>
      let r' := rstrip r in
      if isspace c && (r' =? "")%string then EmptyString else String c r'
  end.

(** [s.strip()]. *)
Definition strip (s : string) : string := rstrip (lstrip s).

(** Truth value of a string: [not s] holds exactly for the empty one. *)
Definition truthy (s : string) : bool := negb (s =? "")%string.

End Py.

Import Py.

(* ================================================================= *)
(** ** ClickableLabel and TranscriptionWidget: the accuracy model *)

Module Widget.

Record ClickableLabel := mkLabel {
  text : string;
  selected : bool;
  styleSheet : string
}.

(** [ClickableLabel.__init__(text)]. *)
Definition new_label (t : string) : ClickableLabel :=
  {| text := t;
     selected := false;
     styleSheet := "border: 1px solid gray; padding: 2px; margin: 2px;" |}.

(** [ClickableLabel.mousePressEvent]: flips [selected], restyles, and
    emits [toggled(selected)]; the emitted value is the second
    component. *)
Definition mousePressEvent (l : ClickableLabel) : ClickableLabel * bool :=
  let sel := negb (selected l) in
  ({| text := text l;
      selected := sel;
      styleSheet :=
        if sel
        then "background-color: yellow; border: 1px solid gray; padding: 2px; margin: 2px;"
        else "background-color: none; border: 1px solid gray; padding: 2px; margin: 2px;" |},
   sel).

(** Text of the speed label: ["Speed: -"] or ["Speed: <speed:.2f> seconds"]. *)
Inductive speed_text :=
| SpeedDash
| SpeedSeconds (speed : Q).

(** Text of the accuracy label: ["Accuracy: -"], ["Accuracy: N/A"] or
    ["Accuracy: <accuracy:.1f>% (<correct>/<total> correct)"]. *)
Inductive accuracy_text :=
| AccDash
| AccNA
| AccPct (accuracy : Q) (correct total : Z).

Record TranscriptionWidget := mkWidget {
  title : string;
  word_labels : list ClickableLabel;
  speedLabel : speed_text;
  accuracyLabel : accuracy_text
}.

(** [TranscriptionWidget.__init__(title)]. *)
Definition new_widget (t : string) : TranscriptionWidget :=
  {| title := t; word_labels := [];
     speedLabel := SpeedDash; accuracyLabel := AccDash |}.

Definition set_accuracyLabel (a : accuracy_text) (w : TranscriptionWidget) :=
  {| title := title w; word_labels := word_labels w;
     speedLabel := speedLabel w; accuracyLabel := a |}.

Definition set_word_labels (ls : list ClickableLabel) (w : TranscriptionWidget) :=
  {| title := title w; word_labels := ls;
     speedLabel := speedLabel w; accuracyLabel := accuracyLabel w |}.

Definition set_speedLabel (s : speed_text) (w : TranscriptionWidget) :=
  {| title := title w; word_labels := word_labels w;
     speedLabel := s; accuracyLabel := accuracyLabel w |}.

(** [sum(1 for label in self.word_labels if label.selected)]. *)
Definition inaccurate_of (ls : list ClickableLabel) : Z :=
  Py.sum (map (fun _ => 1) (filter selected ls)).

(** The text [update_accuracy] computes from the word labels. *)
Definition accuracy_text_of (ls : list ClickableLabel) : result accuracy_text :=
  let total := Py.len ls in
  if total =? 0 then Ok AccNA
  else
    let inaccurate := inaccurate_of ls in
    q <- Py.truediv (total - inaccurate) total ;;
    let accuracy := (q * 100)%Q in
    Ok (AccPct accuracy (total - inaccurate) total).

(** [TranscriptionWidget.update_accuracy]. *)
Definition update_accuracy (w : TranscriptionWidget) : result TranscriptionWidget :=
  accuracy_text <- accuracy_text_of (word_labels w) ;;
  Ok (set_accuracyLabel accuracy_text w).

(** The loop [for word in words: ...] of [set_transcription]: one fresh
    label per word, appended in order. *)
Fixpoint append_words (words : list string) (ls : list ClickableLabel)
  : list ClickableLabel :=
  match words with
  | [] => ls
  | word :: rest => append_words rest (ls ++ [new_label word])
  end.

(** [TranscriptionWidget.set_transcription(text, speed)]. The flow layout,
    which holds the same labels as [word_labels], is not modelled. *)
Definition set_transcription (txt : string) (speed : Q) (w : TranscriptionWidget)
  : result TranscriptionWidget :=
  let w := set_speedLabel (SpeedSeconds speed) w in
  let w := set_word_labels [] w in
  let words := Py.split txt in
  let w := set_word_labels (append_words words (word_labels w)) w in
  update_accuracy w.

(** Replace the label at position [i]. *)
Fixpoint replace_at (i : nat) (l' : ClickableLabel) (ls : list ClickableLabel)
  : list ClickableLabel :=
  match ls, i with
  | [], _ => []
  | _ :: r, O => l' :: r
  | l :: r, S j => l :: replace_at j l' r
  end.

(** A mouse press on the [i]-th word label of the widget: the label's
    [mousePressEvent] runs and its [toggled] signal calls the connected
    slot [update_accuracy]. There is nothing to press at an index that
    holds no label. *)
Definition click (i : nat) (w : TranscriptionWidget) : result TranscriptionWidget :=
  match nth_error (word_labels w) i with
  | None => Ok w
  | Some l =>
      let '(l', _) := mousePressEvent l in
      update_accuracy (set_word_labels (replace_at i l' (word_labels w)) w)
  end.

(** The widgets the program can hold: a fresh one, then any sequence of
    [set_transcription] calls and mouse presses. *)
Inductive reachable : TranscriptionWidget -> Prop :=
| reach_new t : reachable (new_widget t)
| reach_set txt speed w w' :
    reachable w -> set_transcription txt speed w = Ok w' -> reachable w'
| reach_click i w w' :
    reachable w -> click i w = Ok w' -> reachable w'.

(** Number of words marked inaccurate. *)
Definition markedCount (ls : list ClickableLabel) : Z :=
  Z.of_nat (length (filter selected ls)).

End Widget.

(* ================================================================= *)
(** ** JSON values as Python objects *)

Module Json.

(** What [response.json()] returns: [None], [bool], [int], [float],
    [str], [list] or [dict] (a dict is given by its items, keys
    distinct). *)
Inductive json :=
| JNull
| JBool (b : bool)
| JInt (z : Z)
| JFloat (q : Q)
| JStr (s : string)
| JArr (items : list json)
| JObj (items : list (string * json)).

(** [type(v).__name__]. *)
Definition type_name (v : json) : string :=
  match v with
  | JNull => "NoneType"
  | JBool _ => "bool"
  | JInt _ => "int"
  | JFloat _ => "float"
  | JStr _ => "str"
  | JArr _ => "list"
  | JObj _ => "dict"
  end.

Fixpoint lookup (k : string) (items : list (string * json)) : option json :=
  match items with
  | [] => None
  | (k', v) :: rest => if (k' =? k)%string then Some v else lookup k rest
  end.

(** [v.get(k, default)]: defined on dicts only. *)
Definition get (v : json) (k : string) (default : json) : result json :=
  match v with
  | JObj items =>
      match lookup k items with
      | Some x => Ok x
      | None => Ok default
      end
  | _ =>
      Raise (Exn AttributeError
               ("'" ++ type_name v ++ "' object has no attribute 'get'"))
  end.

(** [v[0]]. *)
Definition index0 (v : json) : result json :=
  match v with
  | JArr (x :: _) => Ok x
  | JArr [] => Raise (Exn IndexError "list index out of range")
  | JStr (String c _) => Ok (JStr (String c ""))
  | JStr EmptyString => Raise (Exn IndexError "string index out of range")
  | JObj _ => Raise (Exn KeyError "0")
  | _ =>
      Raise (Exn TypeError
               ("'" ++ type_name v ++ "' object is not subscriptable"))
  end.

End Json.

Import Json.

(* ================================================================= *)
(** ** GroqWorker and DeepgramWorker *)

Module Worker.

(** Content of a WAV file as [record_audio] writes it. *)
Record wave_file := mkWave {
  nchannels : Z;
  sampwidth : Z;
  framerate : Z;
  wave_data : list Byte.byte
}.

Inductive payload :=
| Multipart (model : string) (file_name : string) (file : wave_file)
            (response_format : string)
| RawBody (data : wave_file).

Record request := mkRequest {
  url : string;
  authorization : string;
  content_type : option string;
  body : payload
}.

(** The response object: its status and what [response.json()] gives. *)
Record response := mkResponse {
  status_code : Z;
  json_of : result json
}.

(** What a worker thread meets outside the program: the file system, the
    clock read before and after the request, and the network. *)
Record world := mkWorld {
  open_rb : string -> result wave_file;
  time_before : Q;
  time_after : Q;
  requests_post : request -> result response
}.

Record GroqWorker := mkGroq {
  groq_audio_file : string;
  groq_api_key : string
}.

Record DeepgramWorker := mkDeepgram {
  deepgram_audio_file : string;
  deepgram_api_key : string
}.

(** What a run of a worker thread ends in: the signal
    [result_ready(str, float)] emitted, or an exception that leaves
    [run]. *)
Inductive outcome :=
| Emitted (transcription : string) (elapsed : Q)
| Uncaught (e : exn).

(** [self.result_ready.emit(transcription, elapsed)] on a signal
    declared [pyqtSignal(str, float)]: a [str] is passed on, [None] is
    converted to the empty string, and any other first argument is
    rejected with a [TypeError]. *)
Definition emit (sender : string) (transcription : json) (elapsed : Q) : outcome :=
  match transcription with
  | JStr s => Emitted s elapsed
  | JNull => Emitted "" elapsed
  | v =>
      Uncaught (Exn TypeError
                  (sender ++ ".result_ready[str, float].emit(): argument 1 has unexpected type '"
                   ++ type_name v ++ "'"))
  end.

(** The request [GroqWorker.run] posts: bearer token, multipart form
    with the model, the audio file and the response format. *)
Definition groq_request (w : GroqWorker) (f : wave_file) : request :=
  let url := "https://api.groq.com/openai/v1/audio/transcriptions" in
  let headers := "Bearer " ++ groq_api_key w in
  let files :=
    Multipart "distil-whisper-large-v3-en" (groq_audio_file w) f "verbose_json" in
  mkRequest url headers None files.

(** The [try] block of [GroqWorker.run]. *)
Definition groq_try (w : GroqWorker) (env : world) : result (json * Q) :=
  f <- open_rb env (groq_audio_file w) ;;
  let start_time := time_before env in
  response <- requests_post env (groq_request w f) ;;
  let elapsed := (time_after env - start_time)%Q in
  data <- json_of response ;;
  transcription <- Json.get data "text" (JStr "") ;;
  Ok (transcription, elapsed).

(** The [except Exception as e] block, shared by both workers. *)
Definition on_exception (e : exn) : json * Q :=
  (JStr ("Error: " ++ exn_str e), 0%Q).

(** [GroqWorker.run]. *)
Definition groq_run (w : GroqWorker) (env : world) : outcome :=
  let '(transcription, elapsed) :=
    match groq_try w env with
    | Ok r => r
    | Raise e => on_exception e
    end in
  emit "GroqWorker" transcription elapsed.

(** The request [DeepgramWorker.run] posts: token scheme, the audio
    bytes as raw body. *)
Definition deepgram_request (w : DeepgramWorker) (audio_data : wave_file) : request :=
  let url := "https://api.deepgram.com/v1/listen?model=nova-3&language=en" in
  let headers := "Token " ++ deepgram_api_key w in
  mkRequest url headers (Some "audio/wav") (RawBody audio_data).

(** The navigation of the returned JSON structure in
    [DeepgramWorker.run]. *)
Definition deepgram_transcript (data : json) : result json :=
  results <- Json.get data "results" (JObj []) ;;
  channels <- Json.get results "channels" (JArr [JObj []]) ;;
  channel <- Json.index0 channels ;;
  alternatives <- Json.get channel "alternatives" (JArr [JObj []]) ;;
  alternative <- Json.index0 alternatives ;;
  Json.get alternative "transcript" (JStr "").

(** The [try] block of [DeepgramWorker.run]. *)
Definition deepgram_try (w : DeepgramWorker) (env : world) : result (json * Q) :=
  audio_data <- open_rb env (deepgram_audio_file w) ;;
  let start_time := time_before env in
  response <- requests_post env (deepgram_request w audio_data) ;;
  let elapsed := (time_after env - start_time)%Q in
  data <- json_of response ;;
  transcription <- deepgram_transcript data ;;
  Ok (transcription, elapsed).

(** [DeepgramWorker.run]. *)
Definition deepgram_run (w : DeepgramWorker) (env : world) : outcome :=
  let '(transcription, elapsed) :=
    match deepgram_try w env with
    | Ok r => r
    | Raise e => on_exception e
    end in
  emit "DeepgramWorker" transcription elapsed.

(** The path of the transcript in a backend-2 response:
    [results.channels[0].alternatives[0].transcript]. *)
Inductive segment := Key (k : string) | Index0.

Definition transcript_path : list segment :=
  [Key "results"; Key "channels"; Index0; Key "alternatives"; Index0;
   Key "transcript"].

(** Some segment of [path] is missing in [v]: a key that an object does
    not have or, with [with_index], a first element that an array does
    not have, all segments before it being there. *)
Fixpoint missing_segment (with_index : bool) (path : list segment) (v : json) : bool :=
  match path with
  | [] => false
  | Key k :: rest =>
      match v with
      | JObj items =>
          match Json.lookup k items with
          | None => true
          | Some x => missing_segment with_index rest x
          end
      | _ => false
      end
  | Index0 :: rest =>
      match v with
      | JArr [] => with_index
      | JArr (x :: _) => missing_segment with_index rest x
      | _ => false
      end
  end.

(** A response with its status replaced, and a world in which every
    response carries that status. *)
Definition with_status (code : Z) (r : response) : response :=
  mkResponse code (json_of r).

Definition world_with_status (code : Z) (env : world) : world :=
  mkWorld (open_rb env) (time_before env) (time_after env)
          (fun req => r <- requests_post env req ;; Ok (with_status code r)).

End Worker.

(* ================================================================= *)
(** ** MainWindow: the orchestrator *)

Module Window.

Import Widget Worker.

Inductive key := Key_Space | Key_Other.

Inductive backend := Backend1 | Backend2.

(** The recording thread [threading.Thread(target=self.record_audio)]:
    not created yet, inside the capture loop, or terminated. *)
Inductive capture := NoThread | Capturing | Terminated.

(** The threads the handlers start, as they are started. *)
Inductive thread :=
| CaptureThread
| GroqThread (w : GroqWorker)
| DeepgramThread (w : DeepgramWorker).

(** The attributes of [MainWindow] that the handlers use, followed by
    what the handlers act on outside the object: the state of the
    recording thread, the content of the file [audio_filename] ([None]
    while it does not exist), the workers whose completion has not been
    handled yet, and the log of started threads. *)
Record MainWindow := mkWindow {
  recording : bool;
  stop_recording_event : bool;
  frames : list (list Byte.byte);
  audio_filename : string;
  groqApiLineEdit : string;
  deepgramApiLineEdit : string;
  statusLabel : string;
  groqWidget : TranscriptionWidget;
  deepgramWidget : TranscriptionWidget;
  groqWorker : option GroqWorker;
  deepgramWorker : option DeepgramWorker;
  recording_thread : capture;
  disk : option wave_file;
  groq_pending : bool;
  deepgram_pending : bool;
  started : list thread
}.

Definition set_recording (v : bool) (s : MainWindow) : MainWindow :=
  {| recording := v; stop_recording_event := stop_recording_event s;
     frames := frames s; audio_filename := audio_filename s;
     groqApiLineEdit := groqApiLineEdit s;
     deepgramApiLineEdit := deepgramApiLineEdit s;
     statusLabel := statusLabel s; groqWidget := groqWidget s;
     deepgramWidget := deepgramWidget s; groqWorker := groqWorker s;
     deepgramWorker := deepgramWorker s;
     recording_thread := recording_thread s; disk := disk s;
     groq_pending := groq_pending s;
     deepgram_pending := deepgram_pending s; started := started s |}.

Definition set_stop_recording_event (v : bool) (s : MainWindow) : MainWindow :=
  {| recording := recording s; stop_recording_event := v;
     frames := frames s; audio_filename := audio_filename s;
     groqApiLineEdit := groqApiLineEdit s;
     deepgramApiLineEdit := deepgramApiLineEdit s;
     statusLabel := statusLabel s; groqWidget := groqWidget s;
     deepgramWidget := deepgramWidget s; groqWorker := groqWorker s;
     deepgramWorker := deepgramWorker s;
     recording_thread := recording_thread s; disk := disk s;
     groq_pending := groq_pending s;
     deepgram_pending := deepgram_pending s; started := started s |}.

Definition set_frames (v : list (list Byte.byte)) (s : MainWindow) : MainWindow :=
  {| recording := recording s;
     stop_recording_event := stop_recording_event s; frames := v;
     audio_filename := audio_filename s;
     groqApiLineEdit := groqApiLineEdit s;
     deepgramApiLineEdit := deepgramApiLineEdit s;
     statusLabel := statusLabel s; groqWidget := groqWidget s;
     deepgramWidget := deepgramWidget s; groqWorker := groqWorker s;
     deepgramWorker := deepgramWorker s;
     recording_thread := recording_thread s; disk := disk s;
     groq_pending := groq_pending s;
     deepgram_pending := deepgram_pending s; started := started s |}.

Definition set_groqApiLineEdit (v : string) (s : MainWindow) : MainWindow :=
  {| recording := recording s;
     stop_recording_event := stop_recording_event s; frames := frames s;
     audio_filename := audio_filename s; groqApiLineEdit := v;
     deepgramApiLineEdit := deepgramApiLineEdit s;
     statusLabel := statusLabel s; groqWidget := groqWidget s;
     deepgramWidget := deepgramWidget s; groqWorker := groqWorker s;
     deepgramWorker := deepgramWorker s;
     recording_thread := recording_thread s; disk := disk s;
     groq_pending := groq_pending s;
     deepgram_pending := deepgram_pending s; started := started s |}.

Definition set_deepgramApiLineEdit (v : string) (s : MainWindow) : MainWindow :=
  {| recording := recording s;
     stop_recording_event := stop_recording_event s; frames := frames s;
     audio_filename := audio_filename s;
     groqApiLineEdit := groqApiLineEdit s; deepgramApiLineEdit := v;
     statusLabel := statusLabel s; groqWidget := groqWidget s;
     deepgramWidget := deepgramWidget s; groqWorker := groqWorker s;
     deepgramWorker := deepgramWorker s;
     recording_thread := recording_thread s; disk := disk s;
     groq_pending := groq_pending s;
     deepgram_pending := deepgram_pending s; started := started s |}.

Definition set_statusLabel (v : string) (s : MainWindow) : MainWindow :=
  {| recording := recording s;
     stop_recording_event := stop_recording_event s; frames := frames s;
     audio_filename := audio_filename s;
     groqApiLineEdit := groqApiLineEdit s;
     deepgramApiLineEdit := deepgramApiLineEdit s; statusLabel := v;
     groqWidget := groqWidget s; deepgramWidget := deepgramWidget s;
     groqWorker := groqWorker s; deepgramWorker := deepgramWorker s;
     recording_thread := recording_thread s; disk := disk s;
     groq_pending := groq_pending s;
     deepgram_pending := deepgram_pending s; started := started s |}.

Definition set_groqWidget (v : TranscriptionWidget) (s : MainWindow) : MainWindow :=
  {| recording := recording s;
     stop_recording_event := stop_recording_event s; frames := frames s;
     audio_filename := audio_filename s;
     groqApiLineEdit := groqApiLineEdit s;
     deepgramApiLineEdit := deepgramApiLineEdit s;
     statusLabel := statusLabel s; groqWidget := v;
     deepgramWidget := deepgramWidget s; groqWorker := groqWorker s;
     deepgramWorker := deepgramWorker s;
     recording_thread := recording_thread s; disk := disk s;
     groq_pending := groq_pending s;
     deepgram_pending := deepgram_pending s; started := started s |}.

Definition set_deepgramWidget (v : TranscriptionWidget) (s : MainWindow) : MainWindow :=
  {| recording := recording s;
     stop_recording_event := stop_recording_event s; frames := frames s;
     audio_filename := audio_filename s;
     groqApiLineEdit := groqApiLineEdit s;
     deepgramApiLineEdit := deepgramApiLineEdit s;
     statusLabel := statusLabel s; groqWidget := groqWidget s;
     deepgramWidget := v; groqWorker := groqWorker s;
     deepgramWorker := deepgramWorker s;
     recording_thread := recording_thread s; disk := disk s;
     groq_pending := groq_pending s;
     deepgram_pending := deepgram_pending s; started := started s |}.

Definition set_groqWorker (v : option GroqWorker) (s : MainWindow) : MainWindow :=
  {| recording := recording s;
     stop_recording_event := stop_recording_event s; frames := frames s;
     audio_filename := audio_filename s;
     groqApiLineEdit := groqApiLineEdit s;
     deepgramApiLineEdit := deepgramApiLineEdit s;
     statusLabel := statusLabel s; groqWidget := groqWidget s;
     deepgramWidget := deepgramWidget s; groqWorker := v;
     deepgramWorker := deepgramWorker s;
     recording_thread := recording_thread s; disk := disk s;
     groq_pending := groq_pending s;
     deepgram_pending := deepgram_pending s; started := started s |}.

Definition set_deepgramWorker (v : option DeepgramWorker) (s : MainWindow) : MainWindow :=
  {| recording := recording s;
     stop_recording_event := stop_recording_event s; frames := frames s;
     audio_filename := audio_filename s;
     groqApiLineEdit := groqApiLineEdit s;
     deepgramApiLineEdit := deepgramApiLineEdit s;
     statusLabel := statusLabel s; groqWidget := groqWidget s;
     deepgramWidget := deepgramWidget s; groqWorker := groqWorker s;
     deepgramWorker := v; recording_thread := recording_thread s;
     disk := disk s; groq_pending := groq_pending s;
     deepgram_pending := deepgram_pending s; started := started s |}.

Definition set_recording_thread (v : capture) (s : MainWindow) : MainWindow :=
  {| recording := recording s;
     stop_recording_event := stop_recording_event s; frames := frames s;
     audio_filename := audio_filename s;
     groqApiLineEdit := groqApiLineEdit s;
     deepgramApiLineEdit := deepgramApiLineEdit s;
     statusLabel := statusLabel s; groqWidget := groqWidget s;
     deepgramWidget := deepgramWidget s; groqWorker := groqWorker s;
     deepgramWorker := deepgramWorker s; recording_thread := v;
     disk := disk s; groq_pending := groq_pending s;
     deepgram_pending := deepgram_pending s; started := started s |}.

Definition set_disk (v : option wave_file) (s : MainWindow) : MainWindow :=
  {| recording := recording s;
     stop_recording_event := stop_recording_event s; frames := frames s;
     audio_filename := audio_filename s;
     groqApiLineEdit := groqApiLineEdit s;
     deepgramApiLineEdit := deepgramApiLineEdit s;
     statusLabel := statusLabel s; groqWidget := groqWidget s;
     deepgramWidget := deepgramWidget s; groqWorker := groqWorker s;
     deepgramWorker := deepgramWorker s;
     recording_thread := recording_thread s; disk := v;
     groq_pending := groq_pending s;
     deepgram_pending := deepgram_pending s; started := started s |}.

Definition set_groq_pending (v : bool) (s : MainWindow) : MainWindow :=
  {| recording := recording s;
     stop_recording_event := stop_recording_event s; frames := frames s;
     audio_filename := audio_filename s;
     groqApiLineEdit := groqApiLineEdit s;
     deepgramApiLineEdit := deepgramApiLineEdit s;
     statusLabel := statusLabel s; groqWidget := groqWidget s;
     deepgramWidget := deepgramWidget s; groqWorker := groqWorker s;
     deepgramWorker := deepgramWorker s;
     recording_thread := recording_thread s; disk := disk s;
     groq_pending := v; deepgram_pending := deepgram_pending s;
     started := started s |}.

Definition set_deepgram_pending (v : bool) (s : MainWindow) : MainWindow :=
  {| recording := recording s;
     stop_recording_event := stop_recording_event s; frames := frames s;
     audio_filename := audio_filename s;
     groqApiLineEdit := groqApiLineEdit s;
     deepgramApiLineEdit := deepgramApiLineEdit s;
     statusLabel := statusLabel s; groqWidget := groqWidget s;
     deepgramWidget := deepgramWidget s; groqWorker := groqWorker s;
     deepgramWorker := deepgramWorker s;
     recording_thread := recording_thread s; disk := disk s;
     groq_pending := groq_pending s; deepgram_pending := v;
     started := started s |}.

Definition set_started (v : list thread) (s : MainWindow) : MainWindow :=
  {| recording := recording s;
     stop_recording_event := stop_recording_event s; frames := frames s;
     audio_filename := audio_filename s;
     groqApiLineEdit := groqApiLineEdit s;
     deepgramApiLineEdit := deepgramApiLineEdit s;
     statusLabel := statusLabel s; groqWidget := groqWidget s;
     deepgramWidget := deepgramWidget s; groqWorker := groqWorker s;
     deepgramWorker := deepgramWorker s;
     recording_thread := recording_thread s; disk := disk s;
     groq_pending := groq_pending s;
     deepgram_pending := deepgram_pending s; started := v |}.

(** [MainWindow.__init__]. *)
Definition init : MainWindow :=
  {| recording := false;
     stop_recording_event := false;
     frames := [];
     audio_filename := "audio.wav";
     groqApiLineEdit := "";
     deepgramApiLineEdit := "";
     statusLabel := "Press SPACE to start recording.";
     groqWidget := new_widget "Groq Cloud (distil-whisper-large-v3-en)";
     deepgramWidget := new_widget "Deepgram (nova-3)";
     groqWorker := None;
     deepgramWorker := None;
     recording_thread := NoThread;
     disk := None;
     groq_pending := false;
     deepgram_pending := false;
     started := [] |}.

(** The state of the orchestrator as the specification names it. *)
Inductive phase := Idle | Recording | Processing (b : backend).

Definition phase_of (s : MainWindow) : phase :=
  if recording s then Recording
  else if groq_pending s then Processing Backend1
  else if deepgram_pending s then Processing Backend2
  else Idle.

(** [MainWindow.reset_transcriptions]. *)
Definition reset_transcriptions (s : MainWindow) : result MainWindow :=
  g <- set_transcription "" 0 (groqWidget s) ;;
  let s := set_groqWidget g s in
  d <- set_transcription "" 0 (deepgramWidget s) ;;
  let s := set_deepgramWidget d s in
  Ok (set_statusLabel "Press SPACE to start recording." s).

(** [MainWindow.start_recording]. *)
Definition start_recording (s : MainWindow) : MainWindow :=
  let s := set_recording true s in
  let s := set_statusLabel "Recording while SPACE is held down..." s in
  let s := set_stop_recording_event false s in
  let s := set_frames [] s in
  let s := set_recording_thread Capturing s in
  set_started (started s ++ [CaptureThread]) s.

(** The end of [record_audio], once its loop is left: the frames are
    saved as a WAV file (mono, 2 bytes per sample, 16 kHz). *)
Definition save_wave (s : MainWindow) : MainWindow :=
  let s := set_disk (Some (mkWave 1 2 16000 (concat (frames s)))) s in
  set_recording_thread Terminated s.

(** [self.recording_thread.join()] after the stop event is set: a thread
    still in its loop leaves it and saves the file. *)
Definition join_recording_thread (s : MainWindow) : MainWindow :=
  match recording_thread s with
  | Capturing => save_wave s
  | _ => s
  end.

(** [MainWindow.start_transcription]. *)
Definition start_transcription (s : MainWindow) : MainWindow :=
  let groq_api_key := Py.strip (groqApiLineEdit s) in
  let deepgram_api_key := Py.strip (deepgramApiLineEdit s) in
  if negb (Py.truthy groq_api_key) || negb (Py.truthy deepgram_api_key)
  then set_statusLabel "Please enter both API keys!" s
  else
    let s := set_statusLabel "Starting Groq Cloud transcription..." s in
    let w := mkGroq (audio_filename s) groq_api_key in
    let s := set_groqWorker (Some w) s in
    let s := set_groq_pending true s in
    set_started (started s ++ [GroqThread w]) s.

(** [MainWindow.stop_recording]. *)
Definition stop_recording (s : MainWindow) : MainWindow :=
  if negb (recording s) then s
  else
    let s := set_recording false s in
    let s := set_stop_recording_event true s in
    let s := join_recording_thread s in
    let s := set_statusLabel "Processing transcriptions..." s in
    start_transcription s.

(** [MainWindow.keyPressEvent]; the inherited handler changes nothing
    here. *)
Definition keyPressEvent (k : key) (s : MainWindow) : MainWindow :=
  match k with
  | Key_Space => if negb (recording s) then start_recording s else s
  | Key_Other => s
  end.

(** [MainWindow.keyReleaseEvent]. *)
Definition keyReleaseEvent (k : key) (s : MainWindow) : MainWindow :=
  match k with
  | Key_Space => if recording s then stop_recording s else s
  | Key_Other => s
  end.

(** [MainWindow.start_deepgram_transcription], the slot of the Groq
    worker's [finished] signal. *)
Definition start_deepgram_transcription (s : MainWindow) : MainWindow :=
  let s := set_groq_pending false s in
  let s := set_statusLabel "Starting Deepgram transcription..." s in
  let deepgram_api_key := Py.strip (deepgramApiLineEdit s) in
  let w := mkDeepgram (audio_filename s) deepgram_api_key in
  let s := set_deepgramWorker (Some w) s in
  let s := set_deepgram_pending true s in
  set_started (started s ++ [DeepgramThread w]) s.

(** [MainWindow.handle_groq_result]. *)
Definition handle_groq_result (transcription : string) (speed : Q)
    (s : MainWindow) : result MainWindow :=
  g <- set_transcription transcription speed (groqWidget s) ;;
  let s := set_groqWidget g s in
  Ok (set_statusLabel "Groq Cloud transcription complete. Starting Deepgram..." s).

(** [MainWindow.handle_deepgram_result]. *)
Definition handle_deepgram_result (transcription : string) (speed : Q)
    (s : MainWindow) : result MainWindow :=
  d <- set_transcription transcription speed (deepgramWidget s) ;;
  let s := set_deepgramWidget d s in
  let s := set_deepgram_pending false s in
  Ok (set_statusLabel
        "All transcriptions complete. Press SPACE to start a new recording." s).

(** One pass of the capture loop of [record_audio]: a chunk read from
    the stream is appended while the thread is in its loop. *)
Definition record_chunk (data : list Byte.byte) (s : MainWindow) : MainWindow :=
  match recording_thread s with
  | Capturing =>
      if stop_recording_event s then s else set_frames (frames s ++ [data]) s
  | _ => s
  end.

(** [stream.read] raises: the loop is left and the file is saved with the
    frames read so far. *)
Definition record_read_error (s : MainWindow) : MainWindow :=
  match recording_thread s with
  | Capturing => save_wave s
  | _ => s
  end.

(** [p.open] raises before the first read: the thread ends without
    saving a file. *)
Definition record_open_error (s : MainWindow) : MainWindow :=
  match recording_thread s, frames s with
  | Capturing, [] => set_recording_thread Terminated s
  | _, _ => s
  end.

(** What reaches the GUI thread: key events, edits of the two credential
    fields, the chunks and errors of the recording thread, the
    signals of the workers, mouse presses on word labels, the Reset
    button. *)
Inductive event :=
| KeyPress (k : key)
| KeyRelease (k : key)
| EditGroqKey (t : string)
| EditDeepgramKey (t : string)
| MicChunk (data : list Byte.byte)
| MicReadError
| MicOpenError
| GroqResultReady (transcription : string) (speed : Q)
| GroqFinished
| DeepgramResultReady (transcription : string) (speed : Q)
| WordClicked (b : backend) (i : nat)
| ResetClicked.

(** Dispatch of one event to its handler. A worker signal has a slot
    only once [start_transcription] (for Groq) or
    [start_deepgram_transcription] (for Deepgram) has created the worker
    and connected it. *)
Definition step (s : MainWindow) (ev : event) : result MainWindow :=
  match ev with
  | KeyPress k => Ok (keyPressEvent k s)
  | KeyRelease k => Ok (keyReleaseEvent k s)
  | EditGroqKey t => Ok (set_groqApiLineEdit t s)
  | EditDeepgramKey t => Ok (set_deepgramApiLineEdit t s)
  | MicChunk data => Ok (record_chunk data s)
  | MicReadError => Ok (record_read_error s)
  | MicOpenError => Ok (record_open_error s)
  | GroqResultReady t v =>
      match groqWorker s with
      | Some _ => handle_groq_result t v s
      | None => Ok s
      end
  | GroqFinished =>
      match groqWorker s with
      | Some _ => Ok (start_deepgram_transcription s)
      | None => Ok s
      end
  | DeepgramResultReady t v =>
      match deepgramWorker s with
      | Some _ => handle_deepgram_result t v s
      | None => Ok s
      end
  | WordClicked Backend1 i =>
      g <- click i (groqWidget s) ;; Ok (set_groqWidget g s)
  | WordClicked Backend2 i =>
      d <- click i (deepgramWidget s) ;; Ok (set_deepgramWidget d s)
  | ResetClicked => reset_transcriptions s
  end.

(** The events of a list, handled in order. *)
Fixpoint run (s : MainWindow) (evs : list event) : result MainWindow :=
  match evs with
  | [] => Ok s
  | ev :: rest => s' <- step s ev ;; run s' rest
  end.

(** The signals a Groq worker thread delivers: [result_ready], emitted
    by the last statement of [run], then [finished], emitted by
    [QThread] once [run] has returned. An exception that leaves [run]
    ends the process. *)
Definition groq_signals (o : outcome) : list event :=
  match o with
  | Emitted t v => [GroqResultReady t v; GroqFinished]
  | Uncaught _ => []
  end.

(** The signals of a Deepgram worker thread that have a slot. *)
Definition deepgram_signals (o : outcome) : list event :=
  match o with
  | Emitted t v => [DeepgramResultReady t v]
  | Uncaught _ => []
  end.

(** The threads of a log that capture audio, and those that call
    backend 2. *)
Definition is_capture (t : thread) : bool :=
  match t with CaptureThread => true | _ => false end.

Definition is_deepgram (t : thread) : bool :=
  match t with DeepgramThread _ => true | _ => false end.

Definition capture_sessions (s : MainWindow) : nat :=
  length (filter is_capture (started s)).

(** [open(path, "rb")] followed by reading, on the file system the window
    writes to; only the audio file is known of it. *)
Definition open_audio (s : MainWindow) (path : string) : result wave_file :=
  match (path =? audio_filename s)%string, disk s with
  | true, Some f => Ok f
  | _, _ =>
      Raise (Exn OSError
               ("[Errno 2] No such file or directory: '" ++ path ++ "'"))
  end.

End Window.

(* ================================================================= *)
(** ** Concrete inputs used by the examples below *)

Module Examples.

Import Widget Worker Window.

(** The widget after ["hello world"] arrived at 0.8 s. *)
Definition hello_widget : TranscriptionWidget :=
  mkWidget "Groq" [new_label "hello"; new_label "world"]
           (SpeedSeconds (8 # 10)) (AccPct (200 # 2) 2 2).

Definition silence : wave_file := mkWave 1 2 16000 [].

Definition groq_worker : GroqWorker := mkGroq "audio.wav" "gsk_key".

Definition deepgram_worker : DeepgramWorker := mkDeepgram "audio.wav" "dg_key".

(** A world whose request takes 0.8 s and is answered by [r]. *)
Definition world_of (r : result response) : world :=
  mkWorld (fun _ => Ok silence) 1 (18 # 10) (fun _ => r).

Definition world_network_down : world :=
  world_of (Raise (Exn RequestException "Connection refused")).

Definition world_bad_json : world :=
  world_of (Ok (mkResponse 200
                  (Raise (Exn JSONDecodeError
                            "Expecting value: line 1 column 1 (char 0)")))).

(** A 401 answer with a JSON body: [{"error": {"message": "Invalid API Key"}}]. *)
Definition unauthorized : response :=
  mkResponse 401 (Ok (JObj [("error", JObj [("message", JStr "Invalid API Key")])])).

Definition world_unauthorized : world := world_of (Ok unauthorized).

(** [{"results": {"channels": []}}] *)
Definition empty_channels : json :=
  JObj [("results", JObj [("channels", JArr [])])].

(** [{"metadata": {}}]: no [results] key. *)
Definition no_results : json := JObj [("metadata", JObj [])].

Definition world_empty_channels : world :=
  world_of (Ok (mkResponse 200 (Ok empty_channels))).

Definition world_no_results : world :=
  world_of (Ok (mkResponse 200 (Ok no_results))).

(** Both credentials typed in (the second with blanks around it). *)
Definition keyed : MainWindow :=
  set_deepgramApiLineEdit " dg_key " (set_groqApiLineEdit "gsk_key" init).

(** SPACE held down. *)
Definition holding : MainWindow := keyPressEvent Key_Space keyed.

(** SPACE released: the Groq worker is running. *)
Definition processing1 : MainWindow := keyReleaseEvent Key_Space holding.

(** The Groq worker has finished: the Deepgram worker is running. *)
Definition processing2 : MainWindow := start_deepgram_transcription processing1.

End Examples.

(* ================================================================= *)
(** ** FlowLayout *)

Module Flow.

Local Open Scope list_scope.

(** [QSize]; [QSize()] is the invalid size (-1, -1). *)
Record QSize := mkSize { width : Z; height : Z }.

Definition invalid_size : QSize := mkSize (-1) (-1).

(** [a.expandedTo(b)]: the maximum of the widths and of the heights. *)
Definition expandedTo (a b : QSize) : QSize :=
  mkSize (Z.max (width a) (width b)) (Z.max (height a) (height b)).

(** [QRect(x, y, width, height)]; [right()] is [x + width - 1]. *)
Record QRect := mkRect { rect_x : Z; rect_y : Z; rect_w : Z; rect_h : Z }.

Definition rect_right (r : QRect) : Z := rect_x r + rect_w r - 1.

Record QMargins := mkMargins {
  margin_left : Z; margin_top : Z; margin_right : Z; margin_bottom : Z
}.

Section Layout.

(** The widgets the layout items wrap. *)
Variable W : Type.

(** A layout item: the widget it wraps, what its [sizeHint()] and
    [minimumSize()] return, and the geometry it was last given. *)
Record item := mkItem {
  item_widget : option W;
  sizeHint : QSize;
  item_minimumSize : QSize;
  geometry : QRect
}.

Definition set_item_geometry (r : QRect) (it : item) : item :=
  mkItem (item_widget it) (sizeHint it) (item_minimumSize it) r.

(** The layout: its item list, what [self.spacing()] and
    [self.contentsMargins()] return, and the rectangle the inherited
    [setGeometry] stores. *)
Record FlowLayout := mkFlow {
  itemList : list item;
  spacing : Z;
  contentsMargins : QMargins;
  layout_geometry : QRect
}.

Definition set_itemList (items : list item) (l : FlowLayout) : FlowLayout :=
  mkFlow items (spacing l) (contentsMargins l) (layout_geometry l).

(** [FlowLayout.addItem]. *)
Definition addItem (it : item) (l : FlowLayout) : FlowLayout :=
  set_itemList (itemList l ++ [it]) l.

(** [FlowLayout.count]. *)
Definition count (l : FlowLayout) : Z := Py.len (itemList l).

(** [FlowLayout.itemAt]. *)
Definition itemAt (index : Z) (l : FlowLayout) : option item :=
  if (0 <=? index) && (index <? Py.len (itemList l))
  then nth_error (itemList l) (Z.to_nat index)
  else None.

(** [xs.pop(n)] at a position of the list: the element and the list
    without it. *)
Fixpoint pop (n : nat) (xs : list item) : option (item * list item) :=
  match xs, n with
  | [], _ => None
  | x :: rest, O => Some (x, rest)
  | x :: rest, S m =>
      match pop m rest with
      | Some (y, rest') => Some (y, x :: rest')
      | None => None
      end
  end.

(** [FlowLayout.takeAt]: the item taken, if any, and the layout left. *)
Definition takeAt (index : Z) (l : FlowLayout) : option item * FlowLayout :=
  if (0 <=? index) && (index <? Py.len (itemList l))
  then
    match pop (Z.to_nat index) (itemList l) with
    | Some (it, rest) => (Some it, set_itemList rest l)
    | None => (None, l)
    end
  else (None, l).

(** [FlowLayout.__del__]: [takeAt(0)] until it returns [None]; [fuel]
    bounds the number of passes of the loop. *)
Fixpoint del_loop (fuel : nat) (l : FlowLayout) : option FlowLayout :=
  match fuel with
  | O => None
  | S fuel' =>
      match takeAt 0 l with
      | (Some _, l') => del_loop fuel' l'
      | (None, l') => Some l'
      end
  end.

(** [FlowLayout.minimumSize]. *)
Definition minimumSize (l : FlowLayout) : QSize :=
  let size :=
    fold_left (fun size it => expandedTo size (item_minimumSize it))
              (itemList l) invalid_size in
  let margins := contentsMargins l in
  mkSize (width size + (margin_left margins + margin_right margins))
         (height size + (margin_top margins + margin_bottom margins)).

(** [FlowLayout.sizeHint]. *)
Definition layout_sizeHint (l : FlowLayout) : QSize := minimumSize l.

(** The loop of [FlowLayout.doLayout] from the item list [items] on,
    with the current values of [x], [y] and [lineHeight]: the items with
    the geometry they are given, and the value returned. *)
Fixpoint doLayout_from (rect : QRect) (space : Z) (testOnly : bool)
    (items : list item) (x y lineHeight : Z) : list item * Z :=
  match items with
  | [] => ([], y + lineHeight - rect_y rect)
  | it :: rest =>
      let spaceX := space in
      let spaceY := space in
      let nextX := x + width (sizeHint it) + spaceX in
      let '(x, y, nextX, lineHeight) :=
        if (nextX - spaceX >? rect_right rect) && (lineHeight >? 0)
        then (rect_x rect, y + lineHeight + spaceY,
              rect_x rect + width (sizeHint it) + spaceX, 0)
        else (x, y, nextX, lineHeight) in
      let it' :=
        if testOnly then it
        else set_item_geometry
               (mkRect x y (width (sizeHint it)) (height (sizeHint it))) it in
      let '(rest', h) :=
        doLayout_from rect space testOnly rest nextX y
          (Z.max lineHeight (height (sizeHint it))) in
      (it' :: rest', h)
  end.

(** [FlowLayout.doLayout]: the layout with its items placed, and the
    height used. *)
Definition doLayout (rect : QRect) (testOnly : bool) (l : FlowLayout)
  : FlowLayout * Z :=
  let '(items, h) :=
    doLayout_from rect (spacing l) testOnly (itemList l)
                  (rect_x rect) (rect_y rect) 0 in
  (set_itemList items l, h).

(** [FlowLayout.heightForWidth]. *)
Definition heightForWidth (w : Z) (l : FlowLayout) : Z :=
  snd (doLayout (mkRect 0 0 w 0) true l).

(** [FlowLayout.setGeometry]. *)
Definition setGeometry (rect : QRect) (l : FlowLayout) : FlowLayout :=
  let l := mkFlow (itemList l) (spacing l) (contentsMargins l) rect in
  fst (doLayout rect false l).

(** [range(n)]. *)
Definition range (n : Z) : list Z := map Z.of_nat (seq 0 (Z.to_nat n)).

(** The loop [for i in reversed(range(self.flowLayout.count())): ...]
    of [set_transcription], over the indices [indices]: the layout left
    and the widgets given to [deleteLater], in order. *)
Fixpoint clear_from (indices : list Z) (l : FlowLayout) (deleted : list W)
  : FlowLayout * list W :=
  match indices with
  | [] => (l, deleted)
  | i :: rest =>
      let '(taken, l') := takeAt i l in
      let deleted' :=
        match taken with
        | Some it =>
            match item_widget it with
            | Some widget => deleted ++ [widget]
            | None => deleted
            end
        | None => deleted
        end in
      clear_from rest l' deleted'
  end.

Definition clear_layout (l : FlowLayout) : FlowLayout * list W :=
  clear_from (rev (range (count l))) l [].

(** The widgets wrapped by a list of items. *)
Fixpoint widgets_of (items : list item) : list W :=
  match items with
  | [] => []
  | it :: rest =>
      match item_widget it with
      | Some w => w :: widgets_of rest
      | None => widgets_of rest
      end
  end.

End Layout.

Arguments mkItem {W}.
Arguments item_widget {W}.
Arguments sizeHint {W}.
Arguments item_minimumSize {W}.
Arguments geometry {W}.
Arguments mkFlow {W}.
Arguments itemList {W}.
Arguments spacing {W}.
Arguments contentsMargins {W}.
Arguments layout_geometry {W}.
Arguments addItem {W}.
Arguments count {W}.
Arguments itemAt {W}.
Arguments takeAt {W}.
Arguments del_loop {W}.
Arguments minimumSize {W}.
Arguments doLayout_from {W}.
Arguments doLayout {W}.
Arguments heightForWidth {W}.
Arguments setGeometry {W}.
Arguments clear_layout {W}.
Arguments widgets_of {W}.

End Flow.

(* ================================================================= *)
(** ** Predicates used to state the properties of the whole program *)

Module Extra.

Import Widget Worker Window.

(** Some character of [s] is whitespace. *)
Fixpoint has_space (s : string) : bool :=
  match s with
  | EmptyString => false
  | String c r => Py.isspace c || has_space r
  end.

(** Every character of [s] is whitespace. *)
Fixpoint blank (s : string) : bool :=
  match s with
  | EmptyString => true
  | String c r => Py.isspace c && blank r
  end.

(** [correct / total * 100]. *)
Definition percent (correct total : Z) : Q :=
  (inject_Z correct / inject_Z total * 100)%Q.

(** The style sheet [mousePressEvent] gives a label it has just marked. *)
Definition marked_style : string :=
  "background-color: yellow; border: 1px solid gray; padding: 2px; margin: 2px;".

(** The windows the program can be in: the initial one, then any
    sequence of events. *)
Inductive reachable_window : MainWindow -> Prop :=
| reach_init : reachable_window init
| reach_step s ev s' :
    reachable_window s -> step s ev = Ok s' -> reachable_window s'.

Definition is_groq (t : thread) : bool :=
  match t with GroqThread _ => true | _ => false end.

(** What holds of a started thread: a worker reads the file
    ["audio.wav"], and a Groq worker has a non-empty key. *)
Definition thread_ok (t : thread) : Prop :=
  match t with
  | CaptureThread => True
  | GroqThread w => groq_audio_file w = "audio.wav" /\ groq_api_key w <> ""
  | DeepgramThread w => deepgram_audio_file w = "audio.wav"
  end.

(** No Deepgram thread of the log comes before the first Groq thread;
    [seen] tells whether a Groq thread came before the log. *)
Fixpoint groq_first (seen : bool) (log : list thread) : bool :=
  match log with
  | [] => true
  | CaptureThread :: rest => groq_first seen rest
  | GroqThread _ :: rest => groq_first true rest
  | DeepgramThread _ :: rest => seen && groq_first seen rest
  end.

(** The events of one uninterrupted cycle: SPACE held while the chunks
    [chunks] are read, then both results. *)
Definition cycle_events (chunks : list (list Byte.byte))
    (t1 : string) (v1 : Q) (t2 : string) (v2 : Q) : list event :=
  (KeyPress Key_Space :: map MicChunk chunks ++
   [KeyRelease Key_Space; GroqResultReady t1 v1; GroqFinished;
    DeepgramResultReady t2 v2])%list.

(** What every window the program can be in satisfies. *)
Definition window_inv (s : MainWindow) : Prop :=
  audio_filename s = "audio.wav" /\
  (recording_thread s = Capturing ->
   recording s = true /\ stop_recording_event s = false) /\
  Forall thread_ok (started s) /\
  groq_first false (started s) = true /\
  (groqWorker s <> None -> existsb is_groq (started s) = true).

(** A response with two channels, the first with two alternatives. *)
Definition two_channels : json :=
  JObj [("results",
         JObj [("channels",
                JArr [JObj [("alternatives",
                             JArr [JObj [("transcript", JStr "hello world")];
                                   JObj [("transcript", JStr "yellow word")]])];
                      JObj []])])].

(** A file system without the audio file. *)
Definition no_file (path : string) : result wave_file :=
  Raise (Exn OSError ("[Errno 2] No such file or directory: '" ++ path ++ "'")).

(** SPACE held with a Deepgram field that holds two blanks. *)
Definition blank_key_holding : MainWindow :=
  keyPressEvent Key_Space
    (set_deepgramApiLineEdit "  " (set_groqApiLineEdit "gsk_key" init)).

(** An empty layout for word labels, and an item of it. *)
Definition empty_layout : Flow.FlowLayout string :=
  Flow.mkFlow [] 6 (Flow.mkMargins 0 0 0 0) (Flow.mkRect 0 0 0 0).

Definition one_item : Flow.item string :=
  Flow.mkItem (Some "hello") (Flow.mkSize 40 20) (Flow.mkSize 40 20)
              (Flow.mkRect 0 0 0 0).

(** A layout of three word labels, spacing 6. *)
Definition three_items : Flow.FlowLayout string :=
  Flow.mkFlow
    [Flow.mkItem (Some "hello") (Flow.mkSize 40 20) (Flow.mkSize 40 20)
                 (Flow.mkRect 0 0 0 0);
     Flow.mkItem (Some "wonderful") (Flow.mkSize 50 20) (Flow.mkSize 50 20)
                 (Flow.mkRect 0 0 0 0);
     Flow.mkItem (Some "day") (Flow.mkSize 30 20) (Flow.mkSize 30 20)
                 (Flow.mkRect 0 0 0 0)]
    6 (Flow.mkMargins 0 0 0 0) (Flow.mkRect 0 0 0 0).

End Extra.

Import Widget Worker Window Examples.

(** Normalisation of the handlers on a window given by its fields. *)
Declare Reduction window_red :=
  cbv [keyPressEvent keyReleaseEvent start_recording stop_recording
       start_transcription start_deepgram_transcription join_recording_thread
       save_wave record_chunk record_read_error record_open_error phase_of
       capture_sessions open_audio
       set_recording set_stop_recording_event set_frames set_groqApiLineEdit
       set_deepgramApiLineEdit set_statusLabel set_groqWidget set_deepgramWidget
       set_groqWorker set_deepgramWorker set_recording_thread set_disk
       set_groq_pending set_deepgram_pending set_started
       recording stop_recording_event frames audio_filename groqApiLineEdit
       deepgramApiLineEdit statusLabel groqWidget deepgramWidget groqWorker
       deepgramWorker recording_thread disk groq_pending deepgram_pending started
       negb].

Ltac window_cbv :=
  match goal with
  | |- ?G => let G' := eval window_red in G in change G'
  end.

Ltac window_cbv_in H :=
  let T := type of H in
  let T' := eval window_red in T in
  change T' in H.

(* ================================================================= *)
(** * Properties *)

(** ** The accuracy model *)

Section AccuracyFacts.

Lemma fold_add_ones (A : Type) (l : list A) (k : Z) :
  fold_left Z.add (map (fun _ => 1) l) k = k + Z.of_nat (length l).
Proof.
  revert k; induction l as [|x l IH]; intro k; simpl fold_left.
  - simpl; lia.
  - rewrite IH. simpl length. lia.
Qed.

Lemma inaccurate_is_markedCount ls : inaccurate_of ls = markedCount ls.
Proof.
  unfold inaccurate_of, markedCount, Py.sum.
  rewrite fold_add_ones. lia.
Qed.

Lemma markedCount_bounds ls : 0 <= markedCount ls <= Py.len ls.
Proof.
  unfold markedCount, Py.len.
  pose proof (filter_length_le selected ls). lia.
Qed.

Lemma markedCount_none ls :
  forallb (fun l => negb (selected l)) ls = true -> markedCount ls = 0.
Proof.
  unfold markedCount; induction ls as [|l ls IH]; simpl; [reflexivity|].
  intro H; apply andb_prop in H as [Hl Hr].
  destruct (selected l); [discriminate|]. auto.
Qed.

Lemma markedCount_all ls :
  forallb selected ls = true -> markedCount ls = Py.len ls.
Proof.
  unfold markedCount, Py.len; induction ls as [|l ls IH]; simpl; [reflexivity|].
  intro H; apply andb_prop in H as [Hl Hr].
  rewrite Hl. simpl length. specialize (IH Hr). lia.
Qed.

(** The text computed for a non-empty word list, in closed form. *)
Lemma accuracy_text_of_nonempty ls :
  0 < Py.len ls ->
  accuracy_text_of ls =
    Ok (AccPct (inject_Z (Py.len ls - markedCount ls) / inject_Z (Py.len ls) * 100)%Q
          (Py.len ls - markedCount ls) (Py.len ls)).
Proof.
  intro Hpos. unfold accuracy_text_of, Py.truediv.
  destruct (Z.eqb_spec (Py.len ls) 0) as [E|E]; [lia|].
  rewrite inaccurate_is_markedCount. reflexivity.
Qed.

Lemma accuracy_text_of_empty : accuracy_text_of [] = Ok AccNA.
Proof. reflexivity. Qed.

(** The text is computed without raising, whatever the word list. *)
Lemma accuracy_text_of_total ls : exists a, accuracy_text_of ls = Ok a.
Proof.
  destruct ls as [|l ls].
  - eexists; reflexivity.
  - eexists. apply accuracy_text_of_nonempty. unfold Py.len; simpl length; lia.
Qed.

Lemma update_accuracy_total w :
  exists a, accuracy_text_of (word_labels w) = Ok a /\
            update_accuracy w = Ok (set_accuracyLabel a w).
Proof.
  destruct (accuracy_text_of_total (word_labels w)) as [a Ha].
  exists a; split; [exact Ha|]. unfold update_accuracy. rewrite Ha. reflexivity.
Qed.

Lemma append_words_app words ls :
  append_words words ls = (ls ++ map new_label words)%list.
Proof.
  revert ls; induction words as [|x words IH]; intro ls; simpl.
  - now rewrite app_nil_r.
  - rewrite IH, <- app_assoc. reflexivity.
Qed.

(** [set_transcription] in closed form: it never raises, and installs one
    unmarked label per word of the text. *)
Lemma set_transcription_total txt speed w :
  exists a,
    accuracy_text_of (map new_label (Py.split txt)) = Ok a /\
    set_transcription txt speed w =
      Ok {| title := title w; word_labels := map new_label (Py.split txt);
            speedLabel := SpeedSeconds speed; accuracyLabel := a |}.
Proof.
  destruct (accuracy_text_of_total (map new_label (Py.split txt))) as [a Ha].
  exists a; split; [exact Ha|].
  unfold set_transcription, update_accuracy. cbn [word_labels set_word_labels].
  rewrite append_words_app. cbn [app]. rewrite Ha. reflexivity.
Qed.

(** The text depends on the marks only. *)
Lemma accuracy_text_of_marks ls1 ls2 :
  map selected ls1 = map selected ls2 ->
  accuracy_text_of ls1 = accuracy_text_of ls2.
Proof.
  intro H.
  assert (Hlen : Py.len ls1 = Py.len ls2).
  { unfold Py.len. f_equal.
    rewrite <- (length_map selected ls1), <- (length_map selected ls2).
    now rewrite H. }
  assert (Hm : markedCount ls1 = markedCount ls2).
  { unfold markedCount. f_equal. clear Hlen. revert ls2 H.
    induction ls1 as [|a l1 IH]; intros [|b l2] H; simpl in *; try discriminate.
    - reflexivity.
    - injection H as Hab Hr. rewrite Hab. destruct (selected b); simpl; auto. }
  unfold accuracy_text_of. rewrite !inaccurate_is_markedCount, Hlen, Hm.
  reflexivity.
Qed.

Lemma replace_at_double_press i l ls :
  nth_error ls i = Some l ->
  let l1 := fst (mousePressEvent l) in
  let l2 := fst (mousePressEvent l1) in
  nth_error (replace_at i l1 ls) i = Some l1 /\
  map selected (replace_at i l2 (replace_at i l1 ls)) = map selected ls /\
  map text (replace_at i l2 (replace_at i l1 ls)) = map text ls.
Proof.
  revert i; induction ls as [|x ls IH]; intros [|i] H; simpl in H; try discriminate.
  - injection H as ->. cbn. rewrite negb_involutive. auto.
  - destruct (IH i H) as (H1 & H2 & H3). cbn -[mousePressEvent] in *.
    repeat split; [assumption | now f_equal | now f_equal].
Qed.

(** On every widget the program can hold, a non-empty word list is shown
    with the text computed from it. *)
Lemma reachable_consistent w :
  reachable w ->
  word_labels w <> [] -> accuracy_text_of (word_labels w) = Ok (accuracyLabel w).
Proof.
  induction 1 as [t | txt speed w w' _ _ Hset | i w w' _ IH Hclick]; intro Hne.
  - now elim Hne.
  - destruct (set_transcription_total txt speed w) as (a & Ha & E).
    rewrite E in Hset. injection Hset as <-. exact Ha.
  - unfold click in Hclick. destruct (nth_error (word_labels w) i) as [l|].
    + destruct (mousePressEvent l) as [l' b].
      match type of Hclick with update_accuracy ?x = _ =>
        destruct (update_accuracy_total x) as (a & Ha & E) end.
      rewrite E in Hclick. injection Hclick as <-. exact Ha.
    + injection Hclick as <-. auto.
Qed.

End AccuracyFacts.

(** [str.split()] and [str.strip()] on small inputs. *)
Example split_strip_examples :
  Py.split "  hello   world " = ["hello"; "world"] /\
  Py.split "" = [] /\
  Py.split "   " = [] /\
  Py.strip " dg_key " = "dg_key" /\
  Py.strip "   " = "" /\
  Py.strip "a b" = "a b".
Proof. repeat split; reflexivity. Qed.

(** Scenario A of the specification: ["hello world"] at 0.8 s gives two
    words at 100%; marking one gives 50% (1/2). *)
Example scenario_hello_world :
  exists w1 w2,
    set_transcription "hello world" (8 # 10) (new_widget "Groq") = Ok w1 /\
    map text (word_labels w1) = ["hello"; "world"] /\
    accuracyLabel w1 = AccPct (200 # 2) 2 2 /\
    click 1 w1 = Ok w2 /\
    accuracyLabel w2 = AccPct (100 # 2) 1 2 /\
    (200 # 2 == 100)%Q /\ (100 # 2 == 50)%Q.
Proof. do 2 eexists. repeat split; reflexivity. Qed.

(** C6. For a word list with [total > 0] words of which [markedCount]
    are marked inaccurate, [update_accuracy] shows the score
    [(total - markedCount) / total * 100] (with the count of correct
    words and the total); the score is 100 when no word is marked and 0
    when every word is marked. *)
Theorem accuracy_score_formula (w : TranscriptionWidget) :
  let total := Py.len (word_labels w) in
  let marked := markedCount (word_labels w) in
  0 < total ->
  exists a : Q,
    update_accuracy w = Ok (set_accuracyLabel (AccPct a (total - marked) total) w) /\
    (a == inject_Z (total - marked) / inject_Z total * 100)%Q /\
    (forallb (fun l => negb (selected l)) (word_labels w) = true -> (a == 100)%Q) /\
    (forallb selected (word_labels w) = true -> (a == 0)%Q).
Proof.
  intros total marked Hpos.
  exists (inject_Z (total - marked) / inject_Z total * 100)%Q.
  assert (Hnz : ~ (inject_Z total == 0)%Q).
  { unfold Qeq; simpl. lia. }
  split; [|split; [reflexivity|split]].
  - unfold update_accuracy. rewrite (accuracy_text_of_nonempty _ Hpos). reflexivity.
  - intro Hnone. apply markedCount_none in Hnone. subst marked.
    rewrite Hnone, Z.sub_0_r. field. exact Hnz.
  - intro Hall. apply markedCount_all in Hall. subst marked total.
    rewrite Hall, Z.sub_diag. field. exact Hnz.
Qed.

Lemma accuracy_score_formula_witness :
  exists a : Q,
    update_accuracy (mkWidget "t" [mkLabel "a" true ""; mkLabel "b" false ""] SpeedDash AccDash)
      = Ok (set_accuracyLabel (AccPct a (2 - 1) 2)
              (mkWidget "t" [mkLabel "a" true ""; mkLabel "b" false ""] SpeedDash AccDash)) /\
    (a == inject_Z (2 - 1) / inject_Z 2 * 100)%Q /\
    (forallb (fun l => negb (selected l)) [mkLabel "a" true ""; mkLabel "b" false ""] = true
     -> (a == 100)%Q) /\
    (forallb selected [mkLabel "a" true ""; mkLabel "b" false ""] = true -> (a == 0)%Q).
Proof.
  apply (accuracy_score_formula
           (mkWidget "t" [mkLabel "a" true ""; mkLabel "b" false ""] SpeedDash AccDash)).
  reflexivity.
Defined.

(** C7. [set_transcription] with the empty text leaves zero words and
    the score text "N/A"; recomputing the score never divides by zero
    (it returns normally on every word list), and neither a new
    transcript nor a mouse press can make it raise. *)
Theorem empty_transcript_is_NA_and_no_division_error :
  (forall speed w,
      exists w', set_transcription "" speed w = Ok w' /\
                 Py.len (word_labels w') = 0 /\ accuracyLabel w' = AccNA) /\
  (forall w, exists w', update_accuracy w = Ok w') /\
  (forall txt speed w, exists w', set_transcription txt speed w = Ok w') /\
  (forall i w, exists w', click i w = Ok w').
Proof.
  repeat split.
  - intros speed w. eexists. repeat split; reflexivity.
  - intro w. destruct (update_accuracy_total w) as (a & _ & E). eauto.
  - intros txt speed w.
    destruct (set_transcription_total txt speed w) as (a & _ & E). eauto.
  - intros i w. unfold click. destruct (nth_error (word_labels w) i) as [l|]; [|eauto].
    destruct (mousePressEvent l) as [l' b].
    match goal with |- context [update_accuracy ?x] =>
      destruct (update_accuracy_total x) as (a & _ & E) end.
    eauto.
Qed.

(** C8. On a widget the program can hold, pressing word [i] twice puts
    the mark of word [i] (and of every other word) back to what it was
    and shows exactly the score text shown before. *)
Theorem toggle_twice_restores (w : TranscriptionWidget) (i : nat) :
  reachable w ->
  (i < length (word_labels w))%nat ->
  exists w1 w2,
    click i w = Ok w1 /\ click i w1 = Ok w2 /\
    option_map selected (nth_error (word_labels w1) i)
      = option_map (fun l => negb (selected l)) (nth_error (word_labels w) i) /\
    option_map selected (nth_error (word_labels w2) i)
      = option_map selected (nth_error (word_labels w) i) /\
    map selected (word_labels w2) = map selected (word_labels w) /\
    map text (word_labels w2) = map text (word_labels w) /\
    accuracy_text_of (word_labels w2) = accuracy_text_of (word_labels w) /\
    accuracyLabel w2 = accuracyLabel w.
Proof.
  intros Hreach Hi.
  destruct (nth_error (word_labels w) i) as [l|] eqn:Hl;
    [|apply nth_error_None in Hl; lia].
  destruct (replace_at_double_press i l (word_labels w) Hl) as (H1 & Hsel & Htxt).
  set (l1 := fst (mousePressEvent l)) in *.
  set (l2 := fst (mousePressEvent l1)) in *.
  set (x1 := set_word_labels (replace_at i l1 (word_labels w)) w).
  destruct (update_accuracy_total x1) as (a1 & _ & E1).
  set (w1 := set_accuracyLabel a1 x1) in *.
  set (x2 := set_word_labels (replace_at i l2 (word_labels w1)) w1).
  destruct (update_accuracy_total x2) as (a2 & Ha2 & E2).
  exists w1, (set_accuracyLabel a2 x2).
  assert (C1 : click i w = Ok w1).
  { unfold click. rewrite Hl. exact E1. }
  assert (C2 : click i w1 = Ok (set_accuracyLabel a2 x2)).
  { unfold click. cbn [word_labels w1 x1 set_accuracyLabel set_word_labels].
    rewrite H1. exact E2. }
  assert (Hne : word_labels w <> []).
  { intro E. rewrite E in Hl. destruct i; discriminate. }
  repeat split; try assumption.
  - cbn [word_labels w1 x1 set_accuracyLabel set_word_labels]. rewrite H1.
    reflexivity.
  - cbn [word_labels w1 x1 x2 set_accuracyLabel set_word_labels].
    rewrite <- nth_error_map, Hsel, nth_error_map, Hl. reflexivity.
  - apply accuracy_text_of_marks. exact Hsel.
  - cbn [accuracyLabel set_accuracyLabel].
    cbn [word_labels x2 w1 x1 set_accuracyLabel set_word_labels] in Ha2.
    rewrite (accuracy_text_of_marks _ _ Hsel) in Ha2.
    rewrite (reachable_consistent w Hreach Hne) in Ha2. now injection Ha2.
Qed.

Lemma toggle_twice_restores_witness :
  exists w1 w2,
    click 0 hello_widget = Ok w1 /\ click 0 w1 = Ok w2 /\
    option_map selected (nth_error (word_labels w1) 0)
      = option_map (fun l => negb (selected l)) (nth_error (word_labels hello_widget) 0) /\
    option_map selected (nth_error (word_labels w2) 0)
      = option_map selected (nth_error (word_labels hello_widget) 0) /\
    map selected (word_labels w2) = map selected (word_labels hello_widget) /\
    map text (word_labels w2) = map text (word_labels hello_widget) /\
    accuracy_text_of (word_labels w2) = accuracy_text_of (word_labels hello_widget) /\
    accuracyLabel w2 = accuracyLabel hello_widget.
Proof.
  apply (toggle_twice_restores hello_widget 0).
  - apply (reach_set "hello world" (8 # 10) (new_widget "Groq")).
    + apply reach_new.
    + reflexivity.
  - simpl. lia.
Defined.

(** ** The transcription workers *)

Section WorkerFacts.

Lemma error_text_not_empty (e : exn) : "Error: " ++ exn_str e <> "".
Proof. simpl. discriminate. Qed.

Lemma groq_run_raised w env e :
  groq_try w env = Raise e ->
  groq_run w env = Emitted ("Error: " ++ exn_str e) 0.
Proof. intro H. unfold groq_run. rewrite H. reflexivity. Qed.

Lemma deepgram_run_raised w env e :
  deepgram_try w env = Raise e ->
  deepgram_run w env = Emitted ("Error: " ++ exn_str e) 0.
Proof. intro H. unfold deepgram_run. rewrite H. reflexivity. Qed.

(** The stages at which the [try] block of a worker is left by an
    exception: opening the audio file, the request, decoding the body,
    reading the transcript out of the decoded body. *)
Lemma groq_try_raises w env e :
  groq_try w env = Raise e <->
  open_rb env (groq_audio_file w) = Raise e \/
  exists f, open_rb env (groq_audio_file w) = Ok f /\
    (requests_post env (groq_request w f) = Raise e \/
     exists r, requests_post env (groq_request w f) = Ok r /\
       (json_of r = Raise e \/
        exists data, json_of r = Ok data /\
                     Json.get data "text" (JStr "") = Raise e)).
Proof.
  unfold groq_try. split.
  - destruct (open_rb env (groq_audio_file w)) as [f|e0]; cbn [bind];
      [|intros [= ->]; now left].
    intro H. right. exists f. split; [reflexivity|].
    destruct (requests_post env (groq_request w f)) as [r|e1]; cbn [bind] in H;
      [|left; now injection H as ->].
    right. exists r. split; [reflexivity|].
    destruct (json_of r) as [data|e2]; cbn [bind] in H; [|left; now injection H as ->].
    right. exists data. split; [reflexivity|].
    destruct (Json.get data "text" (JStr "")) as [t|e3]; cbn [bind] in H;
      [discriminate | now injection H as ->].
  - intros [H | (f & Hf & [H | (r & Hr & [H | (data & Hd & H)])])].
    + now rewrite H.
    + rewrite Hf; cbn [bind]. now rewrite H.
    + rewrite Hf; cbn [bind]. rewrite Hr; cbn [bind]. now rewrite H.
    + rewrite Hf; cbn [bind]. rewrite Hr; cbn [bind]. rewrite Hd; cbn [bind].
      now rewrite H.
Qed.

Lemma deepgram_try_raises w env e :
  deepgram_try w env = Raise e <->
  open_rb env (deepgram_audio_file w) = Raise e \/
  exists f, open_rb env (deepgram_audio_file w) = Ok f /\
    (requests_post env (deepgram_request w f) = Raise e \/
     exists r, requests_post env (deepgram_request w f) = Ok r /\
       (json_of r = Raise e \/
        exists data, json_of r = Ok data /\ deepgram_transcript data = Raise e)).
Proof.
  unfold deepgram_try. split.
  - destruct (open_rb env (deepgram_audio_file w)) as [f|e0]; cbn [bind];
      [|intros [= ->]; now left].
    intro H. right. exists f. split; [reflexivity|].
    destruct (requests_post env (deepgram_request w f)) as [r|e1];
      cbn [bind] in H; [|left; now injection H as ->].
    right. exists r. split; [reflexivity|].
    destruct (json_of r) as [data|e2]; cbn [bind] in H; [|left; now injection H as ->].
    right. exists data. split; [reflexivity|].
    destruct (deepgram_transcript data) as [t|e3]; cbn [bind] in H;
      [discriminate | now injection H as ->].
  - intros [H | (f & Hf & [H | (r & Hr & [H | (data & Hd & H)])])].
    + now rewrite H.
    + rewrite Hf; cbn [bind]. now rewrite H.
    + rewrite Hf; cbn [bind]. rewrite Hr; cbn [bind]. now rewrite H.
    + rewrite Hf; cbn [bind]. rewrite Hr; cbn [bind]. rewrite Hd; cbn [bind].
      now rewrite H.
Qed.

End WorkerFacts.

(** The status of the response is never looked at. *)
Lemma status_not_inspected gw dw env code :
  groq_run gw (world_with_status code env) = groq_run gw env /\
  deepgram_run dw (world_with_status code env) = deepgram_run dw env.
Proof.
  unfold groq_run, deepgram_run, groq_try, deepgram_try, world_with_status.
  cbn [open_rb time_before time_after requests_post].
  split.
  - destruct (open_rb env (groq_audio_file gw)) as [f|e0]; cbn [bind]; [|reflexivity].
    destruct (requests_post env (groq_request gw f)) as [r|e1]; reflexivity.
  - destruct (open_rb env (deepgram_audio_file dw)) as [f|e0]; cbn [bind]; [|reflexivity].
    destruct (requests_post env (deepgram_request dw f)) as [r|e1]; reflexivity.
Qed.

(** A 401 answer whose body is a JSON object without [text] is not a
    failure for the worker: empty text, measured latency. *)
Example unauthorized_is_no_failure :
  groq_run groq_worker
    (world_of (Ok (mkResponse 401
                     (Ok (JObj [("error", JObj [("message", JStr "Invalid API Key")])])))))
  = Emitted "" ((18 # 10) - 1)%Q.
Proof. reflexivity. Qed.

(** C3, as stated, fails: when the request raises, the text that is
    emitted is not empty. *)
Lemma failed_call_text_is_not_empty :
  ~ (forall (w : GroqWorker) (env : world) (e : exn),
        groq_try w env = Raise e ->
        exists v, groq_run w env = Emitted "" v).
Proof.
  intro H.
  destruct (H groq_worker world_network_down
              (Exn RequestException "Connection refused") eq_refl) as [v Hv].
  vm_compute in Hv. discriminate Hv.
Qed.

(** C3, amended. When an exception is raised in a transcription call
    (opening the file, the request, decoding the body, reading the
    decoded body), the result emitted has the text ["Error: "] followed
    by the message of the exception, which is not empty, and latency 0;
    there is no separate error field. The status of the response plays no
    part in the result. *)
Theorem failed_call_emits_error_text
    (gw : GroqWorker) (dw : DeepgramWorker) (env : world) :
  (forall e, groq_try gw env = Raise e ->
     groq_run gw env = Emitted ("Error: " ++ exn_str e) 0 /\
     "Error: " ++ exn_str e <> "") /\
  (forall e, deepgram_try dw env = Raise e ->
     deepgram_run dw env = Emitted ("Error: " ++ exn_str e) 0 /\
     "Error: " ++ exn_str e <> "") /\
  (forall code,
     groq_run gw (world_with_status code env) = groq_run gw env /\
     deepgram_run dw (world_with_status code env) = deepgram_run dw env).
Proof.
  repeat split.
  - now apply groq_run_raised.
  - apply error_text_not_empty.
  - now apply deepgram_run_raised.
  - apply error_text_not_empty.
  - apply (status_not_inspected gw dw env code).
  - apply (status_not_inspected gw dw env code).
Qed.

Lemma failed_call_emits_error_text_witness :
  (groq_run groq_worker world_network_down = Emitted "Error: Connection refused" 0 /\
   "Error: Connection refused" <> "") /\
  (deepgram_run deepgram_worker world_network_down
     = Emitted "Error: Connection refused" 0 /\
   "Error: Connection refused" <> "").
Proof.
  destruct (failed_call_emits_error_text groq_worker deepgram_worker world_network_down)
    as (Hg & Hd & _).
  split.
  - apply (Hg (Exn RequestException "Connection refused")). reflexivity.
  - apply (Hd (Exn RequestException "Connection refused")). reflexivity.
Defined.

(** The latency the [try] block of a worker returns is the time the
    request took. *)
Lemma groq_try_latency w env v l :
  groq_try w env = Ok (v, l) -> l = (time_after env - time_before env)%Q.
Proof.
  unfold groq_try.
  destruct (open_rb env (groq_audio_file w)) as [f|]; cbn [bind]; [|discriminate].
  destruct (requests_post env (groq_request w f)) as [r|]; cbn [bind]; [|discriminate].
  destruct (json_of r) as [data|]; cbn [bind]; [|discriminate].
  destruct (Json.get data "text" (JStr "")) as [t|]; cbn [bind]; [|discriminate].
  now intros [= _ <-].
Qed.

Lemma deepgram_try_latency w env v l :
  deepgram_try w env = Ok (v, l) -> l = (time_after env - time_before env)%Q.
Proof.
  unfold deepgram_try.
  destruct (open_rb env (deepgram_audio_file w)) as [f|]; cbn [bind]; [|discriminate].
  destruct (requests_post env (deepgram_request w f)) as [r|]; cbn [bind];
    [|discriminate].
  destruct (json_of r) as [data|]; cbn [bind]; [|discriminate].
  destruct (deepgram_transcript data) as [t|]; cbn [bind]; [|discriminate].
  now intros [= _ <-].
Qed.

Lemma emitted_latency sender v l t l' :
  emit sender v l = Emitted t l' -> l' = l.
Proof. destruct v; cbn [emit]; intro H; try discriminate H; now injection H. Qed.

(** C5, as stated, fails: a call answered with a non-success status and
    a JSON body is a failed call, raises nothing in the worker, and is
    reported with the time the request took, which is not 0. *)
Lemma error_status_reports_measured_latency :
  ~ (forall (w : GroqWorker) (env : world),
        (exists e, groq_try w env = Raise e) \/
        (exists f r,
            open_rb env (groq_audio_file w) = Ok f /\
            requests_post env (groq_request w f) = Ok r /\
            ~ 200 <= status_code r < 300) ->
        exists t v, groq_run w env = Emitted t v /\ (v == 0)%Q).
Proof.
  intro H.
  destruct (H groq_worker world_unauthorized) as (t & v & Hrun & Hv).
  - right. exists silence, unauthorized.
    split; [reflexivity|]. split; [reflexivity|]. cbn [status_code unauthorized]. lia.
  - vm_compute in Hrun. injection Hrun as _ <-. vm_compute in Hv. discriminate Hv.
Qed.

(** C5, amended. Whenever an exception is raised in a transcription
    call, at any stage and in particular after the response has been
    received (its body cannot be decoded, or the decoded body cannot be
    read), the latency that is emitted is 0, whatever the clock showed.
    A non-success status is no such failure: the status plays no part in
    the result, and a call in which no exception is raised emits, if it
    emits, the time the request took. *)
Theorem failed_call_reports_zero_latency
    (gw : GroqWorker) (dw : DeepgramWorker) (env : world) :
  (forall e, groq_try gw env = Raise e ->
     exists t, groq_run gw env = Emitted t 0) /\
  (forall e, deepgram_try dw env = Raise e ->
     exists t, deepgram_run dw env = Emitted t 0) /\
  (forall f r e,
     open_rb env (groq_audio_file gw) = Ok f ->
     requests_post env (groq_request gw f) = Ok r ->
     json_of r = Raise e \/
     (exists data, json_of r = Ok data /\ Json.get data "text" (JStr "") = Raise e) ->
     exists t, groq_run gw env = Emitted t 0) /\
  (forall f r e,
     open_rb env (deepgram_audio_file dw) = Ok f ->
     requests_post env (deepgram_request dw f) = Ok r ->
     json_of r = Raise e \/
     (exists data, json_of r = Ok data /\ deepgram_transcript data = Raise e) ->
     exists t, deepgram_run dw env = Emitted t 0) /\
  (forall code,
     groq_run gw (world_with_status code env) = groq_run gw env /\
     deepgram_run dw (world_with_status code env) = deepgram_run dw env) /\
  (forall v l t l',
     groq_try gw env = Ok (v, l) -> groq_run gw env = Emitted t l' ->
     l' = (time_after env - time_before env)%Q) /\
  (forall v l t l',
     deepgram_try dw env = Ok (v, l) -> deepgram_run dw env = Emitted t l' ->
     l' = (time_after env - time_before env)%Q).
Proof.
  split; [|split; [|split; [|split; [|split; [|split]]]]].
  - intros e H. exists ("Error: " ++ exn_str e). now apply groq_run_raised.
  - intros e H. exists ("Error: " ++ exn_str e). now apply deepgram_run_raised.
  - intros f r e Hf Hr Hj. exists ("Error: " ++ exn_str e).
    apply groq_run_raised, groq_try_raises. right. exists f. split; [exact Hf|].
    right. exists r. split; [exact Hr|]. exact Hj.
  - intros f r e Hf Hr Hj. exists ("Error: " ++ exn_str e).
    apply deepgram_run_raised, deepgram_try_raises. right. exists f.
    split; [exact Hf|]. right. exists r. split; [exact Hr|]. exact Hj.
  - intro code. apply status_not_inspected.
  - intros v l t l' Htry Hrun. unfold groq_run in Hrun. rewrite Htry in Hrun.
    apply emitted_latency in Hrun. apply groq_try_latency in Htry. congruence.
  - intros v l t l' Htry Hrun. unfold deepgram_run in Hrun. rewrite Htry in Hrun.
    apply emitted_latency in Hrun. apply deepgram_try_latency in Htry. congruence.
Qed.

Lemma failed_call_reports_zero_latency_witness :
  ~ (time_after world_bad_json - time_before world_bad_json == 0)%Q /\
  (exists t, groq_run groq_worker world_bad_json = Emitted t 0) /\
  (exists t, deepgram_run deepgram_worker world_bad_json = Emitted t 0) /\
  (forall t l',
      groq_run groq_worker world_unauthorized = Emitted t l' ->
      l' = (time_after world_unauthorized - time_before world_unauthorized)%Q).
Proof.
  destruct (failed_call_reports_zero_latency groq_worker deepgram_worker world_bad_json)
    as (_ & _ & Hg & Hd & _).
  destruct (failed_call_reports_zero_latency groq_worker deepgram_worker
              world_unauthorized) as (_ & _ & _ & _ & _ & Hl & _).
  split; [vm_compute; discriminate|]. split; [|split].
  - apply (Hg silence
             (mkResponse 200
                (Raise (Exn JSONDecodeError "Expecting value: line 1 column 1 (char 0)")))
             (Exn JSONDecodeError "Expecting value: line 1 column 1 (char 0)"));
      [reflexivity | reflexivity | left; reflexivity].
  - apply (Hd silence
             (mkResponse 200
                (Raise (Exn JSONDecodeError "Expecting value: line 1 column 1 (char 0)")))
             (Exn JSONDecodeError "Expecting value: line 1 column 1 (char 0)"));
      [reflexivity | reflexivity | left; reflexivity].
  - intros t l'. apply (Hl (JStr "") ((18 # 10) - 1)%Q t l'). reflexivity.
Defined.

(** ** The orchestrator *)

Section WindowFacts.

Lemma truthy_false (t : string) : Py.truthy t = false <-> t = "".
Proof.
  unfold Py.truthy. destruct (String.eqb_spec t ""); simpl; split; congruence.
Qed.

Lemma phase_idle s :
  phase_of s = Idle <->
  recording s = false /\ groq_pending s = false /\ deepgram_pending s = false.
Proof.
  unfold phase_of.
  destruct (recording s), (groq_pending s), (deepgram_pending s);
    split; try discriminate; intuition discriminate.
Qed.

Lemma phase_recording s : phase_of s = Recording <-> recording s = true.
Proof.
  unfold phase_of.
  destruct (recording s), (groq_pending s), (deepgram_pending s);
    split; try discriminate; reflexivity.
Qed.

Lemma start_transcription_missing s :
  Py.strip (groqApiLineEdit s) = "" \/ Py.strip (deepgramApiLineEdit s) = "" ->
  start_transcription s = set_statusLabel "Please enter both API keys!" s.
Proof.
  intro H. unfold start_transcription.
  destruct H as [H|H]; apply truthy_false in H; rewrite H; simpl;
    [|rewrite orb_true_r]; reflexivity.
Qed.

Lemma start_transcription_ready s :
  Py.strip (groqApiLineEdit s) <> "" ->
  Py.strip (deepgramApiLineEdit s) <> "" ->
  start_transcription s =
    let w := mkGroq (audio_filename s) (Py.strip (groqApiLineEdit s)) in
    set_started (started s ++ [GroqThread w])
      (set_groq_pending true
         (set_groqWorker (Some w)
            (set_statusLabel "Starting Groq Cloud transcription..." s))).
Proof.
  intros Hg Hd. unfold start_transcription.
  destruct (Py.truthy (Py.strip (groqApiLineEdit s))) eqn:Eg;
    [|apply truthy_false in Eg; contradiction].
  destruct (Py.truthy (Py.strip (deepgramApiLineEdit s))) eqn:Ed;
    [|apply truthy_false in Ed; contradiction].
  reflexivity.
Qed.

(** The two things [start_transcription] can do. *)
Lemma start_transcription_cases s :
  start_transcription s = set_statusLabel "Please enter both API keys!" s \/
  start_transcription s =
    (let w := mkGroq (audio_filename s) (Py.strip (groqApiLineEdit s)) in
     set_started (started s ++ [GroqThread w])
       (set_groq_pending true
          (set_groqWorker (Some w)
             (set_statusLabel "Starting Groq Cloud transcription..." s)))).
Proof.
  destruct (string_dec (Py.strip (groqApiLineEdit s)) "") as [Hg|Hg];
    [left; apply start_transcription_missing; now left|].
  destruct (string_dec (Py.strip (deepgramApiLineEdit s)) "") as [Hd|Hd];
    [left; apply start_transcription_missing; now right|].
  right. now apply start_transcription_ready.
Qed.

Lemma handle_groq_result_total t v s :
  exists g, set_transcription t v (groqWidget s) = Ok g /\
    handle_groq_result t v s =
      Ok (set_statusLabel "Groq Cloud transcription complete. Starting Deepgram..."
            (set_groqWidget g s)).
Proof.
  destruct (set_transcription_total t v (groqWidget s)) as (a & _ & E).
  eexists; split; [exact E|]. unfold handle_groq_result. rewrite E. reflexivity.
Qed.

Lemma handle_deepgram_result_total t v s :
  exists d, set_transcription t v (deepgramWidget s) = Ok d /\
    handle_deepgram_result t v s =
      Ok (set_statusLabel
            "All transcriptions complete. Press SPACE to start a new recording."
            (set_deepgram_pending false (set_deepgramWidget d s))).
Proof.
  destruct (set_transcription_total t v (deepgramWidget s)) as (a & _ & E).
  eexists; split; [exact E|]. unfold handle_deepgram_result. rewrite E. reflexivity.
Qed.

Lemma join_started s : started (join_recording_thread s) = started s.
Proof. unfold join_recording_thread. now destruct (recording_thread s). Qed.

(** What one event can add to the log of started threads. *)
Lemma step_started s ev s' :
  step s ev = Ok s' ->
  started s' = started s \/
  (ev = KeyPress Key_Space /\ started s' = (started s ++ [CaptureThread])%list) \/
  (ev = KeyRelease Key_Space /\ exists w, started s' = (started s ++ [GroqThread w])%list) \/
  (ev = GroqFinished /\ exists w, started s' = (started s ++ [DeepgramThread w])%list).
Proof.
  destruct ev as [k|k|t|t|data| | |t v| |t v|b i| ]; cbn [step].
  - intros [= <-]. destruct k; [|now left]. unfold keyPressEvent.
    destruct (recording s); [now left|]. right; left. split; reflexivity.
  - intros [= <-]. destruct k; [|now left]. unfold keyReleaseEvent, stop_recording.
    destruct (recording s); [|now left]. cbn [negb].
    match goal with |- context [start_transcription ?x] =>
      destruct (start_transcription_cases x) as [E|E]; rewrite E;
      assert (Hx : started x = started s)
        by (cbn [started set_statusLabel]; rewrite join_started; reflexivity)
    end.
    + left. cbn [started set_statusLabel]. exact Hx.
    + right; right; left. split; [reflexivity|]. eexists.
      cbv zeta. cbn [started set_started]. rewrite Hx. reflexivity.
  - intros [= <-]. now left.
  - intros [= <-]. now left.
  - intros [= <-]. left. unfold record_chunk.
    destruct (recording_thread s); try reflexivity.
    now destruct (stop_recording_event s).
  - intros [= <-]. left. unfold record_read_error.
    now destruct (recording_thread s).
  - intros [= <-]. left. unfold record_open_error.
    destruct (recording_thread s); try reflexivity. now destruct (frames s).
  - destruct (groqWorker s); [|intros [= <-]; now left].
    destruct (handle_groq_result_total t v s) as (g' & _ & E). rewrite E.
    intros [= <-]. now left.
  - destruct (groqWorker s); intros [= <-]; [|now left].
    right; right; right. split; [reflexivity|]. eexists. reflexivity.
  - destruct (deepgramWorker s); [|intros [= <-]; now left].
    destruct (handle_deepgram_result_total t v s) as (d' & _ & E). rewrite E.
    intros [= <-]. now left.
  - destruct b.
    + destruct (click i (groqWidget s)); cbn [bind]; intros [= <-]. now left.
    + destruct (click i (deepgramWidget s)); cbn [bind]; intros [= <-]. now left.
  - unfold reset_transcriptions.
    destruct (set_transcription "" 0 (groqWidget s)); cbn [bind]; [|discriminate].
    match goal with |- context [set_transcription "" 0 ?x] =>
      destruct (set_transcription "" 0 x); cbn [bind]; [|discriminate] end.
    intros [= <-]. now left.
Qed.

End WindowFacts.

(** C1, as stated, fails: with both credential fields empty, pressing
    SPACE in [Idle] starts a capture and leaves [Idle]. *)
Lemma hold_start_without_credentials_records :
  ~ (forall s : MainWindow,
        phase_of s = Idle ->
        Py.strip (groqApiLineEdit s) = "" \/ Py.strip (deepgramApiLineEdit s) = "" ->
        phase_of (keyPressEvent Key_Space s) = Idle /\
        capture_sessions (keyPressEvent Key_Space s) = capture_sessions s).
Proof.
  intro H. destruct (H init eq_refl (or_introl eq_refl)) as [H1 _].
  vm_compute in H1. discriminate H1.
Qed.

(** C1, amended. A press of SPACE in [Idle] starts recording whatever the
    credential fields hold. The credentials are checked when SPACE is
    released: if either field is empty once stripped, the status shows
    "Please enter both API keys!", no worker is started and the
    orchestrator is back in [Idle]; if both are non-empty, the Groq
    worker is started with the stripped key. *)
Theorem credentials_checked_at_release (s : MainWindow) :
  phase_of s = Idle ->
  let s1 := keyPressEvent Key_Space s in
  let s2 := keyReleaseEvent Key_Space s1 in
  (phase_of s1 = Recording /\ started s1 = (started s ++ [CaptureThread])%list) /\
  (Py.strip (groqApiLineEdit s) = "" \/ Py.strip (deepgramApiLineEdit s) = "" ->
   phase_of s2 = Idle /\
   statusLabel s2 = "Please enter both API keys!" /\
   started s2 = started s1 /\
   groqWorker s2 = groqWorker s /\ deepgramWorker s2 = deepgramWorker s) /\
  (Py.strip (groqApiLineEdit s) <> "" ->
   Py.strip (deepgramApiLineEdit s) <> "" ->
   phase_of s2 = Processing Backend1 /\
   started s2 =
     (started s1 ++
      [GroqThread (mkGroq (audio_filename s) (Py.strip (groqApiLineEdit s)))])%list).
Proof.
  intro Hidle. apply phase_idle in Hidle as (Hr & Hg & Hd).
  destruct s as [rec sev fr af gk dk st gW dW gw dw rt dsk gp dp log].
  cbn [recording groq_pending deepgram_pending] in Hr, Hg, Hd. subst rec gp dp.
  window_cbv.
  split; [split; reflexivity|]. split.
  - intro Hmiss.
    assert (C : (if Py.truthy (Py.strip gk) then false else true)
                || (if Py.truthy (Py.strip dk) then false else true) = true).
    { destruct Hmiss as [H|H]; apply truthy_false in H; rewrite H;
        [|rewrite orb_true_r]; reflexivity. }
    rewrite C. repeat split; reflexivity.
  - intros Hkg Hkd.
    destruct (Py.truthy (Py.strip gk)) eqn:Eg;
      [|apply truthy_false in Eg; contradiction].
    destruct (Py.truthy (Py.strip dk)) eqn:Ed;
      [|apply truthy_false in Ed; contradiction].
    cbn [orb]. split; reflexivity.
Qed.

Lemma credentials_checked_at_release_witness :
  (phase_of (keyPressEvent Key_Space init) = Recording /\
   phase_of (keyReleaseEvent Key_Space (keyPressEvent Key_Space init)) = Idle /\
   statusLabel (keyReleaseEvent Key_Space (keyPressEvent Key_Space init))
     = "Please enter both API keys!") /\
  phase_of (keyReleaseEvent Key_Space (keyPressEvent Key_Space keyed))
    = Processing Backend1.
Proof.
  split.
  - destruct (credentials_checked_at_release init eq_refl) as ((H1 & _) & H2 & _).
    destruct (H2 (or_introl eq_refl)) as (H3 & H4 & _).
    repeat split; assumption.
  - destruct (credentials_checked_at_release keyed eq_refl) as (_ & _ & H3).
    apply H3; vm_compute; discriminate.
Defined.

(** The example states are reached from the initial window. *)
Example processing_states_reached :
  run init [EditGroqKey "gsk_key"; EditDeepgramKey " dg_key ";
            KeyPress Key_Space; KeyRelease Key_Space] = Ok processing1 /\
  phase_of processing1 = Processing Backend1 /\
  step processing1 GroqFinished = Ok processing2 /\
  phase_of processing2 = Processing Backend2.
Proof. split; [|split; [|split]]; vm_compute; reflexivity. Qed.

(** C2, as stated, fails: while the Groq worker is running, a press of
    SPACE starts a second capture session. *)
Lemma hold_start_during_processing_starts_capture :
  ~ (forall s : MainWindow,
        phase_of s <> Idle ->
        keyPressEvent Key_Space s = s /\
        capture_sessions (keyPressEvent Key_Space s) = capture_sessions s).
Proof.
  intro H.
  assert (Hp : phase_of processing1 <> Idle) by (vm_compute; discriminate).
  destruct (H processing1 Hp) as [_ Hc]. vm_compute in Hc. discriminate Hc.
Qed.

(** C2, amended. A press of SPACE while in [Recording] is ignored: the
    state does not change and no capture session is started. The guard
    is the [recording] flag alone: the press is ignored exactly when the
    flag is set. *)
Theorem hold_start_ignored_while_recording (s : MainWindow) :
  phase_of s = Recording ->
  step s (KeyPress Key_Space) = Ok s /\
  capture_sessions (keyPressEvent Key_Space s) = capture_sessions s /\
  (forall s0 : MainWindow,
      keyPressEvent Key_Space s0 = s0 <-> recording s0 = true).
Proof.
  intro Hrec. apply phase_recording in Hrec.
  cbn [step]. unfold keyPressEvent. rewrite Hrec. cbn [negb].
  split; [reflexivity|]. split; [reflexivity|]. intro s0. split.
  - destruct (recording s0) eqn:E; [reflexivity|]. cbn [negb].
    intro H. apply (f_equal recording) in H. rewrite E in H. discriminate H.
  - intros ->. reflexivity.
Qed.

Lemma hold_start_ignored_while_recording_witness :
  step holding (KeyPress Key_Space) = Ok holding /\
  capture_sessions (keyPressEvent Key_Space holding) = capture_sessions holding.
Proof.
  assert (Hp : phase_of holding = Recording) by (vm_compute; reflexivity).
  destruct (hold_start_ignored_while_recording holding Hp) as (H1 & H2 & _).
  split; assumption.
Defined.

Lemma filter_deepgram_snoc log t :
  filter is_deepgram (log ++ [t]) <> filter is_deepgram log ->
  is_deepgram t = true.
Proof.
  rewrite filter_app. cbn [filter]. destruct (is_deepgram t); [reflexivity|].
  rewrite app_nil_r. intro H. now elim H.
Qed.

(** The audio file keeps its name, and its content is rewritten only
    when a recording thread ends: at the release of SPACE, or when
    reading the stream fails. *)
Lemma step_audio_file s ev s' :
  step s ev = Ok s' ->
  audio_filename s' = audio_filename s /\
  (disk s' = disk s \/ ev = KeyRelease Key_Space \/ ev = MicReadError).
Proof.
  destruct ev as [k|k|t|t|data| | |t v| |t v|b i| ]; cbn [step].
  - intros [= <-]. destruct s, k; window_cbv;
      repeat match goal with |- context [if ?c then _ else _] => destruct c end;
      auto.
  - intros [= <-]. destruct s as [? ? ? ? ? ? ? ? ? ? ? rt ? ? ? ?], k, rt; window_cbv;
      repeat match goal with |- context [if ?c then _ else _] => destruct c end;
      auto.
  - intros [= <-]. destruct s; window_cbv; auto.
  - intros [= <-]. destruct s; window_cbv; auto.
  - intros [= <-]. destruct s as [? ? ? ? ? ? ? ? ? ? ? rt ? ? ? ?], rt; window_cbv;
      repeat match goal with |- context [if ?c then _ else _] => destruct c end;
      auto.
  - intros [= <-]. destruct s as [? ? ? ? ? ? ? ? ? ? ? rt ? ? ? ?], rt; window_cbv; auto.
  - intros [= <-]. destruct s as [? ? fr ? ? ? ? ? ? ? ? rt ? ? ? ?], rt, fr;
      window_cbv; auto.
  - destruct (groqWorker s); [|intros [= <-]; auto].
    destruct (handle_groq_result_total t v s) as (g' & _ & E). rewrite E.
    intros [= <-]. destruct s; window_cbv; auto.
  - destruct (groqWorker s); intros [= <-]; [|auto].
    destruct s; window_cbv; auto.
  - destruct (deepgramWorker s); [|intros [= <-]; auto].
    destruct (handle_deepgram_result_total t v s) as (d' & _ & E). rewrite E.
    intros [= <-]. destruct s; window_cbv; auto.
  - destruct b.
    + destruct (click i (groqWidget s)); cbn [bind]; intros [= <-].
      destruct s; window_cbv; auto.
    + destruct (click i (deepgramWidget s)); cbn [bind]; intros [= <-].
      destruct s; window_cbv; auto.
  - unfold reset_transcriptions.
    destruct (set_transcription "" 0 (groqWidget s)); cbn [bind]; [|discriminate].
    match goal with |- context [set_transcription "" 0 ?x] =>
      destruct (set_transcription "" 0 x); cbn [bind]; [|discriminate] end.
    intros [= <-]. destruct s; window_cbv; auto.
Qed.



(** C10. The Deepgram key is read from its input field when the Groq
    worker finishes: the worker started then carries the stripped text
    the field holds at that moment, empty or not, and not the text that
    was checked when SPACE was released. *)
Theorem deepgram_key_read_when_groq_finishes (s : MainWindow) :
  (groqWorker s <> None ->
   let dw := mkDeepgram (audio_filename s) (Py.strip (deepgramApiLineEdit s)) in
   step s GroqFinished = Ok (start_deepgram_transcription s) /\
   deepgramWorker (start_deepgram_transcription s) = Some dw /\
   started (start_deepgram_transcription s) = (started s ++ [DeepgramThread dw])%list) /\
  (recording s = true ->
   Py.strip (groqApiLineEdit s) <> "" ->
   Py.strip (deepgramApiLineEdit s) <> "" ->
   forall (k : string) t v,
     let dw := mkDeepgram (audio_filename s) (Py.strip k) in
     exists s1 s',
       step s (KeyRelease Key_Space) = Ok s1 /\
       run s1 [EditDeepgramKey k; GroqResultReady t v; GroqFinished] = Ok s' /\
       deepgramWorker s' = Some dw /\
       started s' = (started s1 ++ [DeepgramThread dw])%list).
Proof.
  split.
  - intro Hw. cbv zeta. cbn [step].
    destruct (groqWorker s) as [w|]; [|now elim Hw].
    destruct s. split; [reflexivity|]. window_cbv. split; reflexivity.
  - intros Hrec Hkg Hkd k t v.
    destruct (Py.truthy (Py.strip (groqApiLineEdit s))) eqn:Htg;
      [|apply truthy_false in Htg; contradiction].
    destruct (Py.truthy (Py.strip (deepgramApiLineEdit s))) eqn:Htd;
      [|apply truthy_false in Htd; contradiction].
    clear Hkg Hkd.
    destruct s as [rec sev fr af gk dk st gW dW gw0 dw0 rt dsk gp dp log].
    cbn [recording groqApiLineEdit deepgramApiLineEdit] in Hrec, Htg, Htd.
    subst rec. cbv zeta. cbn [audio_filename].
    destruct rt.
    all: match goal with |- context [step ?x (KeyRelease Key_Space)] => set (s0 := x) end.
    all: eassert (E1 : keyReleaseEvent Key_Space s0 = _);
      [subst s0; window_cbv; rewrite Htg, Htd; cbv [orb]; reflexivity|].
    all: match type of E1 with _ = ?x => set (s1 := x) in * end.
    all: exists s1.
    all: assert (S1 : step s0 (KeyRelease Key_Space) = Ok s1)
      by (cbn [step]; rewrite E1; reflexivity).
    all: clearbody s0; subst s1; cbn [run step bind]; window_cbv.
    all: match goal with |- context [handle_groq_result ?a ?b ?x] =>
           destruct (handle_groq_result_total a b x) as (g & _ & E2); rewrite E2
         end.
    all: cbn [bind]; window_cbv.
    all: eexists; split; [exact S1|]; split; [reflexivity|].
    all: window_cbv; split; reflexivity.
Qed.

Lemma deepgram_key_read_when_groq_finishes_witness :
  exists s1 s',
    step holding (KeyRelease Key_Space) = Ok s1 /\
    run s1 [EditDeepgramKey ""; GroqResultReady "hello world" (8 # 10); GroqFinished]
      = Ok s' /\
    deepgramWorker s' = Some (mkDeepgram (audio_filename holding) (Py.strip "")) /\
    started s' =
      (started s1 ++
       [DeepgramThread (mkDeepgram (audio_filename holding) (Py.strip ""))])%list.
Proof.
  destruct (deepgram_key_read_when_groq_finishes holding) as [_ H].
  apply H; vm_compute; [reflexivity | discriminate | discriminate].
Defined.

(** ** Parsing of the backend-2 response *)

(** When a key of the path is absent, the navigation falls back on its
    defaults down to the empty transcript. *)
Lemma deepgram_transcript_missing_key (data : json) :
  missing_segment false transcript_path data = true ->
  deepgram_transcript data = Ok (JStr "").
Proof.
  unfold transcript_path, deepgram_transcript. cbn [missing_segment].
  destruct data as [| | | | |?|items]; try discriminate. cbn [Json.get].
  destruct (Json.lookup "results" items) as [results|]; [|intros _; reflexivity].
  cbn [bind].
  destruct results as [| | | | |?|ritems]; try discriminate. cbn [Json.get].
  destruct (Json.lookup "channels" ritems) as [channels|]; [|intros _; reflexivity].
  cbn [bind].
  destruct channels as [| | | | |[|channel ?]|?]; try discriminate.
  cbn [Json.index0 bind].
  destruct channel as [| | | | |?|citems]; try discriminate. cbn [Json.get].
  destruct (Json.lookup "alternatives" citems) as [alternatives|];
    [|intros _; reflexivity].
  cbn [bind].
  destruct alternatives as [| | | | |[|alternative ?]|?]; try discriminate.
  cbn [Json.index0 bind].
  destruct alternative as [| | | | |?|aitems]; try discriminate. cbn [Json.get].
  destruct (Json.lookup "transcript" aitems) as [transcript|];
    [discriminate | intros _; reflexivity].
Qed.

Example empty_channels_raise :
  missing_segment true transcript_path empty_channels = true /\
  deepgram_transcript empty_channels
    = Raise (Exn IndexError "list index out of range") /\
  deepgram_run deepgram_worker world_empty_channels
    = Emitted "Error: list index out of range" 0 /\
  Py.split "Error: list index out of range"
    = ["Error:"; "list"; "index"; "out"; "of"; "range"].
Proof. split; [|split; [|split]]; vm_compute; reflexivity. Qed.

(** C4, as stated, fails: when [channels] is an empty array, the segment
    [channels[0]] is missing, the navigation raises, and the text that
    is emitted is the error message, not the empty string. *)
Lemma missing_index_gives_error_text :
  ~ (forall (w : DeepgramWorker) (env : world) (f : wave_file) (r : response)
            (data : json),
        open_rb env (deepgram_audio_file w) = Ok f ->
        requests_post env (deepgram_request w f) = Ok r ->
        json_of r = Ok data ->
        missing_segment true transcript_path data = true ->
        exists v, deepgram_run w env = Emitted "" v).
Proof.
  intro H.
  destruct (H deepgram_worker world_empty_channels silence
              (mkResponse 200 (Ok empty_channels)) empty_channels
              eq_refl eq_refl eq_refl eq_refl) as [v Hv].
  vm_compute in Hv. discriminate Hv.
Qed.

(** C4, amended. When a key of the path [results], [channels],
    [alternatives], [transcript] is absent from a backend-2 response
    (the segments before it being there), parsing does not raise and the
    transcript is the empty string, emitted with the measured latency;
    once delivered, the Deepgram panel has zero words and the score text
    "N/A", and the Groq panel is left as it was. *)
Theorem missing_key_gives_empty_transcript
    (w : DeepgramWorker) (env : world) (f : wave_file) (r : response)
    (data : json) (s : MainWindow) :
  open_rb env (deepgram_audio_file w) = Ok f ->
  requests_post env (deepgram_request w f) = Ok r ->
  json_of r = Ok data ->
  missing_segment false transcript_path data = true ->
  deepgramWorker s <> None ->
  deepgram_transcript data = Ok (JStr "") /\
  deepgram_run w env = Emitted "" (time_after env - time_before env) /\
  exists s',
    run s (deepgram_signals (deepgram_run w env)) = Ok s' /\
    word_labels (deepgramWidget s') = [] /\
    accuracyLabel (deepgramWidget s') = AccNA /\
    groqWidget s' = groqWidget s.
Proof.
  intros Hf Hr Hj Hmiss Hw.
  pose proof (deepgram_transcript_missing_key data Hmiss) as Ht.
  assert (Hrun : deepgram_run w env = Emitted "" (time_after env - time_before env)).
  { unfold deepgram_run, deepgram_try. rewrite Hf; cbn [bind].
    rewrite Hr; cbn [bind]. rewrite Hj; cbn [bind]. rewrite Ht. reflexivity. }
  split; [exact Ht|]. split; [exact Hrun|].
  rewrite Hrun. cbn [deepgram_signals run step].
  destruct (deepgramWorker s) as [dw|]; [|now elim Hw].
  destruct (handle_deepgram_result_total "" (time_after env - time_before env) s)
    as (d & Hd & E).
  rewrite E. cbn [bind]. eexists. split; [reflexivity|].
  destruct (set_transcription_total "" (time_after env - time_before env)
              (deepgramWidget s)) as (a & Ha & E').
  rewrite E' in Hd. injection Hd as <-.
  change (Py.split "") with (@nil string) in Ha. cbn [map] in Ha.
  rewrite accuracy_text_of_empty in Ha. injection Ha as <-.
  destruct s. split; [reflexivity|]. split; reflexivity.
Qed.

Lemma missing_key_gives_empty_transcript_witness :
  deepgram_transcript no_results = Ok (JStr "") /\
  deepgram_run deepgram_worker world_no_results
    = Emitted "" (time_after world_no_results - time_before world_no_results) /\
  exists s',
    run processing2 (deepgram_signals (deepgram_run deepgram_worker world_no_results))
      = Ok s' /\
    word_labels (deepgramWidget s') = [] /\
    accuracyLabel (deepgramWidget s') = AccNA /\
    groqWidget s' = groqWidget processing2.
Proof.
  apply (missing_key_gives_empty_transcript deepgram_worker world_no_results silence
           (mkResponse 200 (Ok no_results)) no_results processing2);
    try reflexivity.
  vm_compute. discriminate.
Defined.

(* ================================================================= *)
(** * Further properties *)

Import Extra.

(** ** The accuracy model, continued *)

Lemma percent_bounds correct total :
  0 < total -> 0 <= correct <= total ->
  (0 <= percent correct total)%Q /\ (percent correct total <= 100)%Q.
Proof.
  intros Ht Hc. unfold percent.
  destruct total as [|p|p]; try lia.
  unfold Qle, Qdiv, Qmult, Qinv, inject_Z; cbn [Qnum Qden].
  split; cbn; nia.
Qed.

Lemma percent_lt c1 c2 total :
  0 < total -> c1 < c2 -> (percent c1 total < percent c2 total)%Q.
Proof.
  intros Ht Hc. unfold percent.
  destruct total as [|p|p]; try lia.
  unfold Qlt, Qdiv, Qmult, Qinv, inject_Z; cbn [Qnum Qden]. cbn. nia.
Qed.

(** X1. On a non-empty word list the score shown is a percentage: the
    count of correct words lies between 0 and the total, adds up with the
    marked words to the total, and the score lies between 0 and 100. *)
Theorem accuracy_is_a_percentage (w : TranscriptionWidget) :
  word_labels w <> [] ->
  exists a correct total,
    update_accuracy w = Ok (set_accuracyLabel (AccPct a correct total) w) /\
    total = Py.len (word_labels w) /\
    correct + markedCount (word_labels w) = total /\
    0 <= correct <= total /\
    (0 <= a)%Q /\ (a <= 100)%Q.
Proof.
  intro Hne.
  assert (Hpos : 0 < Py.len (word_labels w)).
  { unfold Py.len. destruct (word_labels w); [now elim Hne|]. simpl length. lia. }
  pose proof (markedCount_bounds (word_labels w)) as Hb.
  exists (percent (Py.len (word_labels w) - markedCount (word_labels w))
                  (Py.len (word_labels w))),
         (Py.len (word_labels w) - markedCount (word_labels w)),
         (Py.len (word_labels w)).
  split.
  { unfold update_accuracy. rewrite (accuracy_text_of_nonempty _ Hpos). reflexivity. }
  split; [reflexivity|]. split; [lia|]. split; [lia|].
  apply percent_bounds; lia.
Qed.

Lemma accuracy_is_a_percentage_witness :
  exists a correct total,
    update_accuracy hello_widget
      = Ok (set_accuracyLabel (AccPct a correct total) hello_widget) /\
    total = Py.len (word_labels hello_widget) /\
    correct + markedCount (word_labels hello_widget) = total /\
    0 <= correct <= total /\
    (0 <= a)%Q /\ (a <= 100)%Q.
Proof.
  apply (accuracy_is_a_percentage hello_widget). discriminate.
Defined.

Lemma replace_at_spec i (l l' : ClickableLabel) ls :
  nth_error ls i = Some l ->
  length (replace_at i l' ls) = length ls /\
  nth_error (replace_at i l' ls) i = Some l' /\
  (forall j, j <> i -> nth_error (replace_at i l' ls) j = nth_error ls j) /\
  markedCount (replace_at i l' ls)
    = markedCount ls - (if selected l then 1 else 0) + (if selected l' then 1 else 0).
Proof.
  revert i; induction ls as [|x ls IH]; intros [|i] H; simpl in H; try discriminate.
  - injection H as ->. cbn [replace_at]. repeat split; try reflexivity.
    + intros [|j] Hj; [now elim Hj | reflexivity].
    + unfold markedCount. cbn [filter]. destruct (selected l), (selected l');
        cbn [length]; lia.
  - destruct (IH i H) as (H1 & H2 & H3 & H4). cbn [replace_at]. repeat split.
    + cbn [length]. now rewrite H1.
    + exact H2.
    + intros [|j] Hj; [reflexivity|]. cbn [nth_error]. apply H3. congruence.
    + unfold markedCount in *. cbn [filter]. destruct (selected x); cbn [length]; lia.
Qed.

(** X2. A mouse press on a word changes the count of marked words by
    exactly one (up on an unmarked word, down on a marked one), keeps
    the total, shows the new count of correct words, and moves the score
    strictly down when the word gets marked, strictly up when it gets
    unmarked. *)
Theorem click_moves_score_by_one_word
    (w : TranscriptionWidget) (i : nat) (l : ClickableLabel) :
  nth_error (word_labels w) i = Some l ->
  let total := Py.len (word_labels w) in
  let marked := markedCount (word_labels w) in
  let marked' := if selected l then marked - 1 else marked + 1 in
  exists w',
    click i w = Ok w' /\
    Py.len (word_labels w') = total /\
    markedCount (word_labels w') = marked' /\
    accuracyLabel w' = AccPct (percent (total - marked') total) (total - marked') total /\
    (if selected l
     then (percent (total - marked) total < percent (total - marked') total)%Q
     else (percent (total - marked') total < percent (total - marked) total)%Q).
Proof.
  intros Hl total marked marked'.
  destruct (replace_at_spec i l (fst (mousePressEvent l)) (word_labels w) Hl)
    as (Hlen & _ & _ & Hm).
  set (ls' := replace_at i (fst (mousePressEvent l)) (word_labels w)) in *.
  assert (Hpos : 0 < total).
  { subst total. unfold Py.len. destruct (word_labels w); [destruct i; discriminate|].
    simpl length. lia. }
  assert (Hlen' : Py.len ls' = total) by (unfold Py.len; now rewrite Hlen).
  assert (Hm' : markedCount ls' = marked').
  { rewrite Hm. subst marked'. cbn [mousePressEvent fst selected].
    destruct (selected l); cbn [negb]; lia. }
  exists (set_accuracyLabel
            (AccPct (percent (total - marked') total) (total - marked') total)
            (set_word_labels ls' w)).
  split.
  { assert (Hc : click i w = update_accuracy (set_word_labels ls' w))
      by (unfold click; rewrite Hl; reflexivity).
    rewrite Hc. unfold update_accuracy.
    change (word_labels (set_word_labels ls' w)) with ls'.
    rewrite accuracy_text_of_nonempty by (rewrite Hlen'; exact Hpos).
    rewrite Hlen', Hm'. reflexivity. }
  split; [exact Hlen'|]. split; [exact Hm'|]. split; [reflexivity|].
  subst marked'. destruct (selected l); apply percent_lt; lia.
Qed.

Lemma click_moves_score_by_one_word_witness :
  exists w',
    click 0 hello_widget = Ok w' /\
    Py.len (word_labels w') = 2 /\
    markedCount (word_labels w') = 1 /\
    accuracyLabel w' = AccPct (percent (2 - 1) 2) (2 - 1) 2 /\
    (percent (2 - 1) 2 < percent (2 - 0) 2)%Q.
Proof.
  apply (click_moves_score_by_one_word hello_widget 0 (new_label "hello")).
  reflexivity.
Defined.

Lemma has_space_snoc cur c :
  has_space (cur ++ String c "") = has_space cur || Py.isspace c.
Proof.
  induction cur as [|d cur IH]; cbn [append has_space].
  - now rewrite orb_false_r.
  - rewrite IH. now rewrite orb_assoc.
Qed.

Lemma snoc_not_empty cur c : cur ++ String c "" <> "".
Proof. destruct cur; discriminate. Qed.

(** The words [split] returns are not empty and hold no whitespace. *)
Lemma split_from_words cur s :
  has_space cur = false ->
  Forall (fun t => t <> "" /\ has_space t = false) (Py.split_from cur s).
Proof.
  revert cur; induction s as [|c s IH]; intros cur Hcur; cbn [Py.split_from].
  - destruct (String.eqb_spec cur ""); constructor; auto.
  - destruct (Py.isspace c) eqn:Ec.
    + destruct (String.eqb_spec cur ""); [now apply IH|].
      constructor; [auto | now apply IH].
    + apply IH. rewrite has_space_snoc, Hcur, Ec. reflexivity.
Qed.

Lemma split_words s :
  Forall (fun t => t <> "" /\ has_space t = false) (Py.split s).
Proof. now apply split_from_words. Qed.

Lemma markedCount_new_labels words : markedCount (map new_label words) = 0.
Proof.
  unfold markedCount. induction words as [|x words IH]; [reflexivity|].
  cbn [map filter new_label selected]. exact IH.
Qed.

Lemma percent_full n : 0 < n -> (percent n n == 100)%Q.
Proof.
  intro H. unfold percent. field. unfold Qeq; simpl. lia.
Qed.

(** X3. [set_transcription] starts afresh: it never raises; the new
    labels are the words of the text, in order, none of them marked; the
    speed is shown; the score text is "N/A" for a text without words and
    100% (n/n correct) otherwise; the words and the score the panel had
    before play no part in the result, and setting the same text again
    changes nothing. *)
Theorem set_transcription_starts_afresh
    (txt : string) (speed : Q) (w : TranscriptionWidget) :
  let n := Py.len (Py.split txt) in
  exists w',
    set_transcription txt speed w = Ok w' /\
    map text (word_labels w') = Py.split txt /\
    markedCount (word_labels w') = 0 /\
    speedLabel w' = SpeedSeconds speed /\
    title w' = title w /\
    accuracyLabel w' = (if n =? 0 then AccNA else AccPct (percent n n) n n) /\
    (n = 0 \/ (percent n n == 100)%Q) /\
    (forall ls sp a,
        set_transcription txt speed (mkWidget (title w) ls sp a) = Ok w') /\
    set_transcription txt speed w' = Ok w'.
Proof.
  intro n.
  assert (Hlen : Py.len (map new_label (Py.split txt)) = n)
    by (unfold n, Py.len; now rewrite length_map).
  assert (Hacc : accuracy_text_of (map new_label (Py.split txt))
                 = Ok (if n =? 0 then AccNA else AccPct (percent n n) n n)).
  { destruct (Z.eqb_spec n 0) as [E|E].
    - unfold accuracy_text_of. rewrite Hlen, E. reflexivity.
    - assert (0 < n) by (unfold n, Py.len in *; lia).
      rewrite accuracy_text_of_nonempty by (rewrite Hlen; assumption).
      rewrite Hlen, markedCount_new_labels, Z.sub_0_r. reflexivity. }
  assert (Hset : forall x,
             set_transcription txt speed x =
               Ok (mkWidget (title x) (map new_label (Py.split txt))
                     (SpeedSeconds speed)
                     (if n =? 0 then AccNA else AccPct (percent n n) n n))).
  { intro x. destruct (set_transcription_total txt speed x) as (a & Ha & E).
    rewrite Hacc in Ha. injection Ha as <-. exact E. }
  eexists. split; [apply Hset|]. cbn [word_labels speedLabel title accuracyLabel].
  split.
  { rewrite map_map. cbn [new_label text]. apply map_id. }
  split; [apply markedCount_new_labels|].
  split; [reflexivity|]. split; [reflexivity|]. split; [reflexivity|].
  split.
  { destruct (Z.eq_dec n 0) as [E|E]; [now left|right].
    apply percent_full. unfold n, Py.len in *. lia. }
  split; [intros ls sp a; rewrite Hset; reflexivity | rewrite Hset; reflexivity].
Qed.

Lemma replace_at_Forall (P : ClickableLabel -> Prop) i l' ls :
  Forall P ls -> P l' -> Forall P (replace_at i l' ls).
Proof.
  intros Hls Hl'. revert i. induction Hls as [|x ls Hx Hls IH]; intros [|i];
    cbn [replace_at]; constructor; auto.
Qed.

(** What holds of a fresh label of a word and is kept by a mouse press
    holds of every label of every widget the program can hold. *)
Lemma reachable_labels (P : ClickableLabel -> Prop) :
  (forall t, t <> "" -> has_space t = false -> P (new_label t)) ->
  (forall l, P l -> P (fst (mousePressEvent l))) ->
  forall w, reachable w -> Forall P (word_labels w).
Proof.
  intros Hnew Hpress w Hw.
  induction Hw as [t | txt speed w w' _ _ Hset | i w w' _ IH Hclick].
  - constructor.
  - destruct (set_transcription_total txt speed w) as (a & _ & E).
    rewrite E in Hset. injection Hset as <-. cbn [word_labels].
    pose proof (split_words txt) as Hs. rewrite Forall_forall in Hs.
    apply Forall_forall. intros l Hin.
    apply in_map_iff in Hin as (t & <- & Ht).
    destruct (Hs t Ht) as [H1 H2]. now apply Hnew.
  - unfold click in Hclick.
    destruct (nth_error (word_labels w) i) as [l|] eqn:Hl;
      [|injection Hclick as <-; exact IH].
    assert (Hc : update_accuracy
                   (set_word_labels
                      (replace_at i (fst (mousePressEvent l)) (word_labels w)) w)
                 = Ok w') by exact Hclick.
    match type of Hc with update_accuracy ?x = _ =>
      destruct (update_accuracy_total x) as (a & _ & E) end.
    rewrite E in Hc. injection Hc as <-. cbn [word_labels set_accuracyLabel set_word_labels].
    apply replace_at_Forall; [exact IH|]. apply Hpress.
    rewrite Forall_forall in IH. apply IH. eapply nth_error_In. exact Hl.
Qed.

(** X4. On every widget the program can hold, each word label holds a
    non-empty text without whitespace. *)
Theorem word_labels_hold_words (w : TranscriptionWidget) :
  reachable w ->
  Forall (fun l => text l <> "" /\ has_space (text l) = false) (word_labels w).
Proof.
  apply reachable_labels.
  - intros t H1 H2. split; assumption.
  - intros l H. exact H.
Qed.

Lemma word_labels_hold_words_witness :
  Forall (fun l => text l <> "" /\ has_space (text l) = false)
         (word_labels hello_widget).
Proof.
  apply (word_labels_hold_words hello_widget).
  apply (reach_set "hello world" (8 # 10) (new_widget "Groq"));
    [apply reach_new | reflexivity].
Defined.

(** X5. On every widget the program can hold, a word label has the
    yellow style sheet exactly when it is marked. *)
Theorem marked_words_are_highlighted (w : TranscriptionWidget) :
  reachable w ->
  Forall (fun l => selected l = true <-> styleSheet l = marked_style)
         (word_labels w).
Proof.
  apply reachable_labels.
  - intros t _ _. cbn [new_label selected styleSheet]. split; discriminate.
  - intros l _. cbn [mousePressEvent fst selected styleSheet].
    destruct (selected l); cbn [negb]; split; try discriminate; reflexivity.
Qed.

Lemma marked_words_are_highlighted_witness :
  Forall (fun l => selected l = true <-> styleSheet l = marked_style)
         (word_labels hello_widget).
Proof.
  apply (marked_words_are_highlighted hello_widget).
  apply (reach_set "hello world" (8 # 10) (new_widget "Groq"));
    [apply reach_new | reflexivity].
Defined.

(** X6. A mouse press on word [i] touches that word only: the other
    labels, the texts of all words, the title and the speed shown stay
    as they were, and the mark of word [i] is flipped; a press at an
    index that holds no label changes nothing. *)
Theorem click_touches_one_word (w w' : TranscriptionWidget) (i : nat) :
  click i w = Ok w' ->
  title w' = title w /\
  speedLabel w' = speedLabel w /\
  map text (word_labels w') = map text (word_labels w) /\
  (forall j, j <> i -> nth_error (word_labels w') j = nth_error (word_labels w) j) /\
  option_map selected (nth_error (word_labels w') i)
    = option_map (fun l => negb (selected l)) (nth_error (word_labels w) i) /\
  (nth_error (word_labels w) i = None -> w' = w).
Proof.
  unfold click. destruct (nth_error (word_labels w) i) as [l|] eqn:Hl.
  - intro Hc.
    assert (Hc' : update_accuracy
                    (set_word_labels
                       (replace_at i (fst (mousePressEvent l)) (word_labels w)) w)
                  = Ok w') by exact Hc.
    match type of Hc' with update_accuracy ?x = _ =>
      destruct (update_accuracy_total x) as (a & _ & E) end.
    rewrite E in Hc'. injection Hc' as <-.
    cbn [title speedLabel word_labels set_accuracyLabel set_word_labels].
    destruct (replace_at_spec i l (fst (mousePressEvent l)) (word_labels w) Hl)
      as (_ & H2 & H3 & _).
    split; [reflexivity|]. split; [reflexivity|]. split.
    { clear -Hl. revert i Hl. induction (word_labels w) as [|x ls IH];
        intros [|i] Hl; simpl in Hl; try discriminate.
      - injection Hl as ->. reflexivity.
      - cbn [replace_at map]. f_equal. now apply IH. }
    split; [exact H3|].
    split; [exact (f_equal (option_map selected) H2) | discriminate].
  - intros [= <-]. repeat split; try reflexivity. now rewrite Hl.
Qed.

Lemma click_touches_one_word_witness :
  exists w',
    click 0 hello_widget = Ok w' /\
    title w' = title hello_widget /\
    map text (word_labels w') = map text (word_labels hello_widget) /\
    nth_error (word_labels w') 1 = nth_error (word_labels hello_widget) 1.
Proof.
  eexists. split; [reflexivity|].
  destruct (click_touches_one_word hello_widget _ 0 eq_refl) as (H1 & _ & H3 & H4 & _).
  split; [exact H1|]. split; [exact H3|]. apply H4. discriminate.
Defined.

(** ** The transcription workers, continued *)

(** X7. When the response decodes to an object, the Groq worker emits
    its [text] field, or the empty string when the object has no such
    field, with the time the request took as latency, whatever the
    status and the other fields of the response. *)
Theorem groq_emits_text_field
    (w : GroqWorker) (env : world) (f : wave_file) (r : response)
    (items : list (string * json)) :
  open_rb env (groq_audio_file w) = Ok f ->
  requests_post env (groq_request w f) = Ok r ->
  json_of r = Ok (JObj items) ->
  (forall t, Json.lookup "text" items = Some (JStr t) ->
     groq_run w env = Emitted t (time_after env - time_before env)) /\
  (Json.lookup "text" items = None ->
     groq_run w env = Emitted "" (time_after env - time_before env)).
Proof.
  intros Hf Hr Hj.
  assert (E : groq_try w env =
              (transcription <- Json.get (JObj items) "text" (JStr "") ;;
               Ok (transcription, (time_after env - time_before env)%Q))).
  { unfold groq_try. rewrite Hf; cbn [bind]. rewrite Hr; cbn [bind].
    rewrite Hj; cbn [bind]. reflexivity. }
  unfold groq_run. rewrite E. cbn [Json.get].
  split; [intros t Ht | intro Ht]; rewrite Ht; reflexivity.
Qed.

Lemma groq_emits_text_field_witness :
  groq_run groq_worker
    (world_of (Ok (mkResponse 200 (Ok (JObj [("text", JStr "hello world")])))))
  = Emitted "hello world" ((18 # 10) - 1)%Q.
Proof.
  destruct (groq_emits_text_field groq_worker
              (world_of (Ok (mkResponse 200 (Ok (JObj [("text", JStr "hello world")])))))
              silence (mkResponse 200 (Ok (JObj [("text", JStr "hello world")])))
              [("text", JStr "hello world")] eq_refl eq_refl eq_refl) as [H _].
  apply (H "hello world"). reflexivity.
Defined.

(** X8. When the response holds a string at
    [results.channels[0].alternatives[0].transcript], the Deepgram
    worker emits it with the time the request took as latency; the
    channels and alternatives after the first play no part. *)
Theorem deepgram_emits_first_transcript
    (w : DeepgramWorker) (env : world) (f : wave_file) (r : response)
    (items ritems citems aitems : list (string * json))
    (channels alternatives : list json) (t : string) :
  open_rb env (deepgram_audio_file w) = Ok f ->
  requests_post env (deepgram_request w f) = Ok r ->
  json_of r = Ok (JObj items) ->
  Json.lookup "results" items = Some (JObj ritems) ->
  Json.lookup "channels" ritems = Some (JArr (JObj citems :: channels)) ->
  Json.lookup "alternatives" citems = Some (JArr (JObj aitems :: alternatives)) ->
  Json.lookup "transcript" aitems = Some (JStr t) ->
  deepgram_run w env = Emitted t (time_after env - time_before env).
Proof.
  intros Hf Hr Hj H1 H2 H3 H4.
  unfold deepgram_run, deepgram_try. rewrite Hf; cbn [bind].
  rewrite Hr; cbn [bind]. rewrite Hj; cbn [bind].
  unfold deepgram_transcript. cbn [Json.get]. rewrite H1; cbn [bind Json.get].
  rewrite H2; cbn [bind Json.index0 Json.get]. rewrite H3; cbn [bind Json.index0 Json.get].
  rewrite H4. reflexivity.
Qed.

Lemma deepgram_emits_first_transcript_witness :
  deepgram_run deepgram_worker (world_of (Ok (mkResponse 200 (Ok two_channels))))
  = Emitted "hello world" ((18 # 10) - 1)%Q.
Proof.
  apply (deepgram_emits_first_transcript deepgram_worker
           (world_of (Ok (mkResponse 200 (Ok two_channels)))) silence
           (mkResponse 200 (Ok two_channels))
           [("results",
             JObj [("channels",
                    JArr [JObj [("alternatives",
                                 JArr [JObj [("transcript", JStr "hello world")];
                                       JObj [("transcript", JStr "yellow word")]])];
                          JObj []])])]
           [("channels",
             JArr [JObj [("alternatives",
                          JArr [JObj [("transcript", JStr "hello world")];
                                JObj [("transcript", JStr "yellow word")]])];
                   JObj []])]
           [("alternatives",
             JArr [JObj [("transcript", JStr "hello world")];
                   JObj [("transcript", JStr "yellow word")]])]
           [("transcript", JStr "hello world")]
           [JObj []]
           [JObj [("transcript", JStr "yellow word")]]
           "hello world"); reflexivity.
Defined.

(** X9. When the audio file cannot be opened, no request is made: both
    workers emit the error text of the file error with latency 0,
    whatever the network would have answered and whatever the clock
    shows. *)
Theorem file_error_skips_the_request
    (gw : GroqWorker) (dw : DeepgramWorker)
    (open_file : string -> result wave_file) :
  (forall e, open_file (groq_audio_file gw) = Raise e ->
     forall t0 t1 post,
       groq_run gw (mkWorld open_file t0 t1 post)
       = Emitted ("Error: " ++ exn_str e) 0) /\
  (forall e, open_file (deepgram_audio_file dw) = Raise e ->
     forall t0 t1 post,
       deepgram_run dw (mkWorld open_file t0 t1 post)
       = Emitted ("Error: " ++ exn_str e) 0).
Proof.
  split; intros e He t0 t1 post.
  - apply groq_run_raised. unfold groq_try. cbn [open_rb]. now rewrite He.
  - apply deepgram_run_raised. unfold deepgram_try. cbn [open_rb]. now rewrite He.
Qed.

Lemma file_error_skips_the_request_witness :
  groq_run groq_worker
    (mkWorld no_file 1 (18 # 10)
             (fun _ => Ok (mkResponse 200 (Ok (JObj [("text", JStr "hello")])))))
  = Emitted "Error: [Errno 2] No such file or directory: 'audio.wav'" 0.
Proof.
  destruct (file_error_skips_the_request groq_worker deepgram_worker no_file)
    as [H _].
  apply (H (Exn OSError "[Errno 2] No such file or directory: 'audio.wav'")).
  reflexivity.
Defined.

Lemma emit_uncaught sender v el e :
  emit sender v el = Uncaught e ->
  exn_cls e = TypeError /\ (forall s, v <> JStr s) /\ v <> JNull.
Proof.
  destruct v; cbn [emit]; intro H; try discriminate H;
    injection H as <-; split; try reflexivity; split; try discriminate;
    intros s; discriminate.
Qed.

(** X10. No exception raised inside the [try] block leaves [run]: a
    worker ends without emitting only when the block returned a
    transcript that is neither a string nor [None] (a number, a boolean,
    a list or a dict), which the [str] signal rejects with a
    [TypeError]; a [None] transcript is emitted as the empty string with
    the time the request took. *)
Theorem only_a_non_string_transcript_escapes
    (gw : GroqWorker) (dw : DeepgramWorker) (env : world) :
  (forall e, groq_run gw env = Uncaught e ->
     exn_cls e = TypeError /\
     exists v el,
       groq_try gw env = Ok (v, el) /\ (forall s, v <> JStr s) /\ v <> JNull) /\
  (forall e, deepgram_run dw env = Uncaught e ->
     exn_cls e = TypeError /\
     exists v el,
       deepgram_try dw env = Ok (v, el) /\ (forall s, v <> JStr s) /\ v <> JNull) /\
  (forall el, groq_try gw env = Ok (JNull, el) ->
     groq_run gw env = Emitted "" (time_after env - time_before env)) /\
  (forall el, deepgram_try dw env = Ok (JNull, el) ->
     deepgram_run dw env = Emitted "" (time_after env - time_before env)).
Proof.
  split; [|split; [|split]].
  - intro e. unfold groq_run. destruct (groq_try gw env) as [[v el]|e0].
    + intro H. apply emit_uncaught in H as (H1 & H2 & H3). split; [exact H1|].
      exists v, el. split; [reflexivity|]. split; assumption.
    + cbn [on_exception emit]. discriminate.
  - intro e. unfold deepgram_run. destruct (deepgram_try dw env) as [[v el]|e0].
    + intro H. apply emit_uncaught in H as (H1 & H2 & H3). split; [exact H1|].
      exists v, el. split; [reflexivity|]. split; assumption.
    + cbn [on_exception emit]. discriminate.
  - intros el H. unfold groq_run. rewrite H. cbn [emit].
    now rewrite (groq_try_latency gw env JNull el H).
  - intros el H. unfold deepgram_run. rewrite H. cbn [emit].
    now rewrite (deepgram_try_latency dw env JNull el H).
Qed.

Lemma only_a_non_string_transcript_escapes_witness :
  (exists e v el,
      groq_run groq_worker (world_of (Ok (mkResponse 200 (Ok (JObj [("text", JInt 5)])))))
        = Uncaught e /\
      exn_cls e = TypeError /\
      groq_try groq_worker (world_of (Ok (mkResponse 200 (Ok (JObj [("text", JInt 5)])))))
        = Ok (v, el) /\
      (forall s, v <> JStr s) /\ v <> JNull) /\
  groq_run groq_worker (world_of (Ok (mkResponse 200 (Ok (JObj [("text", JNull)])))))
    = Emitted "" ((18 # 10) - 1)%Q.
Proof.
  split.
  - destruct (only_a_non_string_transcript_escapes groq_worker deepgram_worker
                (world_of (Ok (mkResponse 200 (Ok (JObj [("text", JInt 5)]))))))
      as [H _].
    destruct (H _ eq_refl) as (H1 & v & el & H2 & H3 & H4).
    eexists. exists v, el. split; [reflexivity|]. split; [exact H1|].
    split; [exact H2|]. split; [exact H3 | exact H4].
  - destruct (only_a_non_string_transcript_escapes groq_worker deepgram_worker
                (world_of (Ok (mkResponse 200 (Ok (JObj [("text", JNull)]))))))
      as (_ & _ & H & _).
    apply (H ((18 # 10) - 1)%Q). reflexivity.
Defined.

(** ** The orchestrator, continued *)

Lemma truthy_true (t : string) : Py.truthy t = true <-> t <> "".
Proof.
  unfold Py.truthy. destruct (String.eqb_spec t ""); simpl; split;
    congruence.
Qed.

Ltac frame_case :=
  window_cbv;
  first [ left; repeat split; (reflexivity || discriminate || (intros; assumption))
        | right; left; repeat split; reflexivity ].

(** What one event does to the threads: it starts none, or a capture
    thread, or a Groq worker with a non-empty key, or, with a Groq
    worker in place, a Deepgram worker; the workers are given the audio
    file of the window; a recording thread is in its loop afterwards
    only if the event started it or it was there before. *)
Lemma step_effect s ev s' :
  step s ev = Ok s' ->
  audio_filename s' = audio_filename s /\
  ((started s' = started s /\ groqWorker s' = groqWorker s /\
    (recording_thread s' = Capturing ->
     recording_thread s = Capturing /\ recording s' = recording s /\
     stop_recording_event s' = stop_recording_event s)) \/
   (started s' = (started s ++ [CaptureThread])%list /\
    groqWorker s' = groqWorker s /\
    recording s' = true /\ stop_recording_event s' = false) \/
   (exists w,
       started s' = (started s ++ [GroqThread w])%list /\
       groqWorker s' = Some w /\
       groq_audio_file w = audio_filename s /\ groq_api_key w <> "" /\
       recording_thread s' <> Capturing) \/
   (exists w,
       started s' = (started s ++ [DeepgramThread w])%list /\
       groqWorker s' = groqWorker s /\ groqWorker s <> None /\
       deepgram_audio_file w = audio_filename s /\
       (recording_thread s' = Capturing ->
        recording_thread s = Capturing /\ recording s' = recording s /\
        stop_recording_event s' = stop_recording_event s))).
Proof.
  intro Hstep. split; [exact (proj1 (step_audio_file s ev s' Hstep))|].
  revert Hstep.
  destruct ev as [k|k|t|t|data| | |t v| |t v|b i| ]; cbn [step].
  - intros [= <-]. destruct s as [rec ? ? ? ? ? ? ? ? ? ? ? ? ? ? ?], k, rec;
      frame_case.
  - intros [= <-].
    destruct s as [rec ? ? ? gk dk ? ? ? ? ? rt ? ? ? ?], k, rec;
      try (frame_case; fail).
    destruct (Py.truthy (Py.strip gk)) eqn:Eg, (Py.truthy (Py.strip dk)) eqn:Ed, rt;
      window_cbv; rewrite Eg, Ed; cbv [orb];
      try (left; repeat split; try reflexivity; discriminate);
      right; right; left; eexists;
      (split; [reflexivity|]); (split; [reflexivity|]); (split; [reflexivity|]);
      (split; [apply truthy_true; exact Eg | discriminate]).
  - intros [= <-]. destruct s; frame_case.
  - intros [= <-]. destruct s; frame_case.
  - intros [= <-]. destruct s as [? sev ? ? ? ? ? ? ? ? ? rt ? ? ? ?], rt, sev;
      frame_case.
  - intros [= <-]. destruct s as [? ? ? ? ? ? ? ? ? ? ? rt ? ? ? ?], rt;
      frame_case.
  - intros [= <-]. destruct s as [? ? fr ? ? ? ? ? ? ? ? rt ? ? ? ?], rt, fr;
      frame_case.
  - destruct s as [? ? ? ? ? ? ? ? ? gw ? ? ? ? ? ?]. cbn [groqWorker].
    destruct gw as [gw|]; [|intros [= <-]; frame_case].
    match goal with |- handle_groq_result ?a ?b ?x = _ -> _ =>
      destruct (handle_groq_result_total a b x) as (g' & _ & E); rewrite E end.
    intros [= <-]. frame_case.
  - destruct s as [? ? ? ? ? ? ? ? ? gw ? ? ? ? ? ?]. cbn [groqWorker].
    destruct gw as [gw|]; intros [= <-]; [|frame_case].
    right; right; right. window_cbv. eexists.
    repeat split; try reflexivity; try discriminate; intros; assumption.
  - destruct s as [? ? ? ? ? ? ? ? ? ? dw ? ? ? ? ?]. cbn [deepgramWorker].
    destruct dw as [dw|]; [|intros [= <-]; frame_case].
    match goal with |- handle_deepgram_result ?a ?b ?x = _ -> _ =>
      destruct (handle_deepgram_result_total a b x) as (d' & _ & E); rewrite E end.
    intros [= <-]. frame_case.
  - destruct b.
    + destruct (click i (groqWidget s)); cbn [bind]; intros [= <-].
      destruct s; frame_case.
    + destruct (click i (deepgramWidget s)); cbn [bind]; intros [= <-].
      destruct s; frame_case.
  - unfold reset_transcriptions.
    destruct (set_transcription "" 0 (groqWidget s)); cbn [bind]; [|discriminate].
    match goal with |- context [set_transcription "" 0 ?x] =>
      destruct (set_transcription "" 0 x); cbn [bind]; [|discriminate] end.
    intros [= <-]. destruct s; frame_case.
Qed.

Lemma groq_first_snoc seen log t :
  groq_first seen (log ++ [t]) =
  groq_first seen log &&
  match t with
  | DeepgramThread _ => seen || existsb is_groq log
  | _ => true
  end.
Proof.
  revert seen; induction log as [|x log IH]; intro seen; cbn [app groq_first].
  - destruct t; cbn [existsb]; destruct seen; reflexivity.
  - destruct x; cbn [existsb is_groq]; rewrite IH.
    + reflexivity.
    + destruct t; try reflexivity. cbn [orb]. now rewrite orb_true_r.
    + destruct seen; reflexivity.
Qed.

Lemma groq_first_spec seen log :
  groq_first seen log = true ->
  forall pre w post,
    log = (pre ++ DeepgramThread w :: post)%list ->
    seen = true \/ exists gw, In (GroqThread gw) pre.
Proof.
  revert seen; induction log as [|x log IH]; intros seen H pre w post E.
  - destruct pre; discriminate E.
  - destruct pre as [|p pre]; cbn [app] in E; injection E as -> ->.
    + cbn [groq_first] in H. apply andb_prop in H as [H _]. now left.
    + destruct p; cbn [groq_first] in H.
      * destruct (IH seen H pre w post eq_refl) as [|[gw Hg]]; [now left|].
        right. exists gw. now right.
      * right. exists w0. now left.
      * apply andb_prop in H as [_ H].
        destruct (IH seen H pre w post eq_refl) as [|[gw Hg]]; [now left|].
        right. exists gw. now right.
Qed.

Lemma window_inv_step s ev s' :
  window_inv s -> step s ev = Ok s' -> window_inv s'.
Proof.
  intros (Hname & Hcap & Hok & Hfirst & Hgroq) Hstep.
  destruct (step_effect s ev s' Hstep)
    as (Hn & [(Hs & Hw & Hc) | [(Hs & Hw & Hr & He) |
              [(w & Hs & Hw & Hf & Hk & Hc) | (w & Hs & Hw & Hne & Hf & Hc)]]]);
    unfold window_inv; rewrite Hn, Hs;
    (split; [exact Hname|]).
  - rewrite Hw. split; [|split; [exact Hok|split; [exact Hfirst|exact Hgroq]]].
    intro H. destruct (Hc H) as (H1 & H2 & H3). rewrite H2, H3. now apply Hcap.
  - rewrite Hw, groq_first_snoc, Hfirst, existsb_app.
    split; [intros _; split; assumption|].
    split; [apply Forall_app; split; [exact Hok|]; constructor; [exact I|constructor]|].
    split; [reflexivity|]. intro H. rewrite (Hgroq H). reflexivity.
  - rewrite Hw, groq_first_snoc, Hfirst, existsb_app.
    split; [intro H; now elim Hc|].
    split.
    { apply Forall_app; split; [exact Hok|]. constructor; [|constructor].
      cbn [thread_ok]. rewrite Hf. split; assumption. }
    split; [reflexivity|]. intros _. cbn [existsb is_groq]. now rewrite orb_true_r.
  - rewrite Hw, groq_first_snoc, Hfirst, existsb_app, (Hgroq Hne).
    split.
    { intro H. destruct (Hc H) as (H1 & H2 & H3). rewrite H2, H3. now apply Hcap. }
    split.
    { apply Forall_app; split; [exact Hok|]. constructor; [|constructor].
      cbn [thread_ok]. now rewrite Hf. }
    split; [reflexivity|]. intros _. reflexivity.
Qed.

Lemma window_inv_reachable s : reachable_window s -> window_inv s.
Proof.
  induction 1 as [|s ev s' _ IH Hstep].
  - unfold window_inv.
    split; [reflexivity|]. split; [discriminate|]. split; [constructor|].
    split; [reflexivity|]. intro H. now elim H.
  - exact (window_inv_step s ev s' IH Hstep).
Qed.

Lemma holding_reachable : reachable_window holding.
Proof.
  apply (reach_step (set_deepgramApiLineEdit " dg_key "
                       (set_groqApiLineEdit "gsk_key" init))
                    (KeyPress Key_Space)); [|reflexivity].
  apply (reach_step (set_groqApiLineEdit "gsk_key" init)
                    (EditDeepgramKey " dg_key ")); [|reflexivity].
  apply (reach_step init (EditGroqKey "gsk_key")); [|reflexivity].
  apply reach_init.
Qed.

Lemma processing2_reachable : reachable_window processing2.
Proof.
  apply (reach_step processing1 GroqFinished); [|vm_compute; reflexivity].
  apply (reach_step holding (KeyRelease Key_Space)); [|vm_compute; reflexivity].
  apply holding_reachable.
Qed.

(** X11. In every window the program can be in, a recording thread is
    in its capture loop only while the [recording] flag is set and the
    stop event is clear: once SPACE is released, no thread is left
    capturing. *)
Theorem capture_only_while_recording (s : MainWindow) :
  reachable_window s ->
  (recording_thread s = Capturing ->
   recording s = true /\ stop_recording_event s = false) /\
  (recording s = false -> recording_thread s <> Capturing).
Proof.
  intro Hr. destruct (window_inv_reachable s Hr) as (_ & Hcap & _).
  split; [exact Hcap|]. intros Hrec Hc. destruct (Hcap Hc) as [H _]. congruence.
Qed.

Lemma capture_only_while_recording_witness :
  (recording holding = true /\ stop_recording_event holding = false) /\
  recording_thread processing2 <> Capturing.
Proof.
  split.
  - apply (proj1 (capture_only_while_recording holding holding_reachable)).
    reflexivity.
  - apply (proj2 (capture_only_while_recording processing2 processing2_reachable)).
    vm_compute. reflexivity.
Defined.

(** X12. In every window the program can be in, every worker that was
    started reads the file ["audio.wav"], and every Groq worker that was
    started carries a non-empty key. *)
Theorem workers_read_audio_wav (s : MainWindow) :
  reachable_window s ->
  audio_filename s = "audio.wav" /\ Forall thread_ok (started s).
Proof.
  intro Hr. destruct (window_inv_reachable s Hr) as (Hn & _ & Hok & _).
  split; assumption.
Qed.

Lemma workers_read_audio_wav_witness :
  audio_filename processing2 = "audio.wav" /\
  Forall thread_ok (started processing2).
Proof.
  apply (workers_read_audio_wav processing2). apply processing2_reachable.
Defined.

(** X13. In every window the program can be in, a Deepgram worker was
    started only after some Groq worker had been started. *)
Theorem deepgram_never_before_groq (s : MainWindow) :
  reachable_window s ->
  forall pre w post,
    started s = (pre ++ DeepgramThread w :: post)%list ->
    exists gw, In (GroqThread gw) pre.
Proof.
  intros Hr pre w post E.
  destruct (window_inv_reachable s Hr) as (_ & _ & _ & Hfirst & _).
  destruct (groq_first_spec false (started s) Hfirst pre w post E) as [H|H];
    [discriminate H | exact H].
Qed.

Lemma deepgram_never_before_groq_witness :
  exists gw,
    In (GroqThread gw) [CaptureThread; GroqThread (mkGroq "audio.wav" "gsk_key")].
Proof.
  apply (deepgram_never_before_groq processing2 processing2_reachable
           [CaptureThread; GroqThread (mkGroq "audio.wav" "gsk_key")]
           (mkDeepgram "audio.wav" "dg_key") []).
  vm_compute. reflexivity.
Defined.

Lemma run_app s evs1 evs2 :
  run s (evs1 ++ evs2) = (s1 <- run s evs1 ;; run s1 evs2).
Proof.
  revert s; induction evs1 as [|ev evs1 IH]; intro s; cbn [app run bind].
  - reflexivity.
  - destruct (step s ev) as [s1|e]; cbn [bind]; [apply IH | reflexivity].
Qed.

(** The chunks read while the recording thread is in its loop are
    appended to the frames, in order. *)
Lemma run_chunks rec fr af gk dk st gW dW gw dw dsk gp dp log chunks :
  run (mkWindow rec false fr af gk dk st gW dW gw dw Capturing dsk gp dp log)
      (map MicChunk chunks)
  = Ok (mkWindow rec false (fr ++ chunks) af gk dk st gW dW gw dw Capturing
                 dsk gp dp log).
Proof.
  revert fr; induction chunks as [|c chunks IH]; intro fr; cbn [map run].
  - now rewrite app_nil_r.
  - cbn [step bind]. window_cbv. rewrite IH, <- app_assoc. reflexivity.
Qed.

(** X14. A release of SPACE while not recording is ignored, and so is
    any other key; a release while recording always leaves the window
    not recording, with the stop event set and no thread left capturing,
    so that stopping twice is stopping once. *)
Theorem release_stops_once (s : MainWindow) :
  (recording s = false -> step s (KeyRelease Key_Space) = Ok s) /\
  step s (KeyRelease Key_Other) = Ok s /\
  step s (KeyPress Key_Other) = Ok s /\
  (recording s = true ->
   recording (keyReleaseEvent Key_Space s) = false /\
   stop_recording_event (keyReleaseEvent Key_Space s) = true /\
   recording_thread (keyReleaseEvent Key_Space s) <> Capturing) /\
  recording (stop_recording s) = false /\
  stop_recording (stop_recording s) = stop_recording s.
Proof.
  assert (Hstop : recording (stop_recording s) = false /\
                  stop_recording_event (stop_recording s)
                    = (recording s || stop_recording_event s) /\
                  (recording s = true -> recording_thread (stop_recording s) <> Capturing)).
  { destruct s as [rec sev ? ? ? ? ? ? ? ? ? rt ? ? ? ?], rec, rt; window_cbv;
      repeat match goal with |- context [if ?c then _ else _] => destruct c end;
      repeat split; try reflexivity; discriminate. }
  destruct Hstop as (H1 & H2 & H3).
  split; [intro H; cbn [step]; unfold keyReleaseEvent; now rewrite H|].
  split; [reflexivity|]. split; [reflexivity|]. split.
  { intro H. unfold keyReleaseEvent. rewrite H. rewrite H1, H2, H.
    split; [reflexivity|]. split; [reflexivity|]. now apply H3. }
  split; [exact H1|]. unfold stop_recording at 1. now rewrite H1.
Qed.

Lemma release_stops_once_witness :
  step keyed (KeyRelease Key_Space) = Ok keyed /\
  recording (keyReleaseEvent Key_Space holding) = false /\
  stop_recording_event (keyReleaseEvent Key_Space holding) = true /\
  recording_thread (keyReleaseEvent Key_Space holding) <> Capturing.
Proof.
  destruct (release_stops_once keyed) as (H1 & _).
  destruct (release_stops_once holding) as (_ & _ & _ & H2 & _).
  split; [apply H1; reflexivity | apply H2; reflexivity].
Defined.

(** X15. A hold of SPACE records what is read during it: from any window
    that is not recording, a press, the chunks read, and the release
    leave in the audio file a mono, 16-bit, 16 kHz wave whose data are
    exactly those chunks in order; the frames and the file of an earlier
    recording play no part. *)
Theorem hold_records_the_chunks (s : MainWindow) (chunks : list (list Byte.byte)) :
  recording s = false ->
  exists s',
    run s (KeyPress Key_Space :: map MicChunk chunks ++ [KeyRelease Key_Space])
      = Ok s' /\
    disk s' = Some (mkWave 1 2 16000 (concat chunks)) /\
    frames s' = chunks /\
    recording s' = false /\
    recording_thread s' = Terminated.
Proof.
  intro Hrec.
  destruct s as [rec sev fr af gk dk st gW dW gw dw rt dsk gp dp log].
  cbn [recording] in Hrec. subst rec.
  cbn [run step bind]. window_cbv. rewrite run_app, run_chunks.
  cbn [bind run step app]. window_cbv.
  eexists. split; [reflexivity|].
  destruct (_ || _); window_cbv; repeat split; reflexivity.
Qed.

Lemma hold_records_the_chunks_witness :
  exists s',
    run processing2
        (KeyPress Key_Space :: map MicChunk [[Byte.x01; Byte.x02]; [Byte.x03]]
         ++ [KeyRelease Key_Space]) = Ok s' /\
    disk s' = Some (mkWave 1 2 16000 (concat [[Byte.x01; Byte.x02]; [Byte.x03]])) /\
    frames s' = [[Byte.x01; Byte.x02]; [Byte.x03]] /\
    recording s' = false /\
    recording_thread s' = Terminated.
Proof.
  apply (hold_records_the_chunks processing2). vm_compute. reflexivity.
Defined.

(** X16. When reading the stream fails during a hold, the file is saved
    at once with the chunks read until then, while SPACE is still held;
    the release that follows leaves the file as it is. *)
Theorem read_error_saves_partial_audio
    (s : MainWindow) (chunks : list (list Byte.byte)) :
  recording s = false ->
  exists s1 s2,
    run s (KeyPress Key_Space :: map MicChunk chunks ++ [MicReadError]) = Ok s1 /\
    recording s1 = true /\
    disk s1 = Some (mkWave 1 2 16000 (concat chunks)) /\
    step s1 (KeyRelease Key_Space) = Ok s2 /\
    disk s2 = disk s1 /\
    recording s2 = false.
Proof.
  intro Hrec.
  destruct s as [rec sev fr af gk dk st gW dW gw dw rt dsk gp dp log].
  cbn [recording] in Hrec. subst rec.
  cbn [run step bind]. window_cbv. rewrite run_app, run_chunks.
  cbn [bind run step app]. window_cbv.
  do 2 eexists. split; [reflexivity|]. split; [reflexivity|]. split; [reflexivity|].
  split; [reflexivity|].
  window_cbv. destruct (_ || _); window_cbv; split; reflexivity.
Qed.

Lemma read_error_saves_partial_audio_witness :
  exists s1 s2,
    run keyed (KeyPress Key_Space :: map MicChunk [[Byte.x01]] ++ [MicReadError])
      = Ok s1 /\
    recording s1 = true /\
    disk s1 = Some (mkWave 1 2 16000 (concat [[Byte.x01]])) /\
    step s1 (KeyRelease Key_Space) = Ok s2 /\
    disk s2 = disk s1 /\
    recording s2 = false.
Proof.
  apply (read_error_saves_partial_audio keyed). reflexivity.
Defined.

(** X17. When the audio device cannot be opened, the hold writes no
    file: after the release the audio file is what it was before the
    press, and with both credentials present the Groq worker is started
    on it all the same. *)
Theorem open_error_keeps_the_old_file (s : MainWindow) :
  recording s = false ->
  exists s',
    run s [KeyPress Key_Space; MicOpenError; KeyRelease Key_Space] = Ok s' /\
    disk s' = disk s /\
    recording s' = false /\
    (Py.strip (groqApiLineEdit s) <> "" ->
     Py.strip (deepgramApiLineEdit s) <> "" ->
     started s' =
       (started s ++
        [CaptureThread;
         GroqThread (mkGroq (audio_filename s) (Py.strip (groqApiLineEdit s)))])%list).
Proof.
  intro Hrec.
  destruct s as [rec sev fr af gk dk st gW dW gw dw rt dsk gp dp log].
  cbn [recording] in Hrec. subst rec.
  cbn [run step bind]. window_cbv.
  eexists. split; [reflexivity|].
  destruct (Py.truthy (Py.strip gk)) eqn:Eg, (Py.truthy (Py.strip dk)) eqn:Ed;
    cbv [orb]; window_cbv;
    (split; [reflexivity|]); (split; [reflexivity|]); intros Hg Hd;
    try (apply truthy_false in Eg; contradiction);
    try (apply truthy_false in Ed; contradiction).
  now rewrite <- app_assoc.
Qed.

Lemma open_error_keeps_the_old_file_witness :
  exists s',
    run keyed [KeyPress Key_Space; MicOpenError; KeyRelease Key_Space] = Ok s' /\
    disk s' = disk keyed /\
    recording s' = false /\
    started s' =
      (started keyed ++
       [CaptureThread;
        GroqThread (mkGroq (audio_filename keyed) (Py.strip (groqApiLineEdit keyed)))])%list.
Proof.
  destruct (open_error_keeps_the_old_file keyed eq_refl) as (s' & H1 & H2 & H3 & H4).
  exists s'. split; [exact H1|]. split; [exact H2|]. split; [exact H3|].
  apply H4; vm_compute; discriminate.
Defined.

(** X18. The two panels are independent: the Groq panel changes only on
    a Groq result, a mouse press on one of its words, or Reset, and the
    Deepgram panel only on a Deepgram result, a mouse press on one of
    its words, or Reset. *)
Theorem panels_change_on_their_own_events (s s' : MainWindow) (ev : event) :
  step s ev = Ok s' ->
  (groqWidget s' <> groqWidget s ->
   (exists t v, ev = GroqResultReady t v) \/
   (exists i, ev = WordClicked Backend1 i) \/ ev = ResetClicked) /\
  (deepgramWidget s' <> deepgramWidget s ->
   (exists t v, ev = DeepgramResultReady t v) \/
   (exists i, ev = WordClicked Backend2 i) \/ ev = ResetClicked).
Proof.
  assert (Hsame : forall x : MainWindow,
             Ok x = Ok s' ->
             groqWidget x = groqWidget s -> deepgramWidget x = deepgramWidget s ->
             (groqWidget s' <> groqWidget s ->
              (exists t v, ev = GroqResultReady t v) \/
              (exists i, ev = WordClicked Backend1 i) \/ ev = ResetClicked) /\
             (deepgramWidget s' <> deepgramWidget s ->
              (exists t v, ev = DeepgramResultReady t v) \/
              (exists i, ev = WordClicked Backend2 i) \/ ev = ResetClicked)).
  { intros x [= <-] Hg Hd. split; intro H; now elim H. }
  destruct ev as [k|k|t|t|data| | |t v| |t v|b i| ]; cbn [step].
  - intro H. apply (Hsame _ H); destruct s, k; window_cbv;
      repeat match goal with |- context [if ?c then _ else _] => destruct c end;
      reflexivity.
  - intro H. apply (Hsame _ H);
      destruct s as [? ? ? ? ? ? ? ? ? ? ? rt ? ? ? ?], k, rt; window_cbv;
      repeat match goal with |- context [if ?c then _ else _] => destruct c end;
      reflexivity.
  - intro H. apply (Hsame _ H); destruct s; reflexivity.
  - intro H. apply (Hsame _ H); destruct s; reflexivity.
  - intro H. apply (Hsame _ H);
      destruct s as [? ? ? ? ? ? ? ? ? ? ? rt ? ? ? ?], rt; window_cbv;
      repeat match goal with |- context [if ?c then _ else _] => destruct c end;
      reflexivity.
  - intro H. apply (Hsame _ H);
      destruct s as [? ? ? ? ? ? ? ? ? ? ? rt ? ? ? ?], rt; reflexivity.
  - intro H. apply (Hsame _ H);
      destruct s as [? ? fr ? ? ? ? ? ? ? ? rt ? ? ? ?], rt, fr; reflexivity.
  - intro H. split; [intros _; left; eauto|].
    destruct (groqWorker s); [|injection H as <-; intro F; now elim F].
    destruct (handle_groq_result_total t v s) as (g' & _ & E). rewrite E in H.
    injection H as <-. intro F. elim F. destruct s; reflexivity.
  - intro H. destruct (groqWorker s); apply (Hsame _ H); destruct s; reflexivity.
  - intro H. split; [|intros _; left; eauto].
    destruct (deepgramWorker s); [|injection H as <-; intro F; now elim F].
    destruct (handle_deepgram_result_total t v s) as (d' & _ & E). rewrite E in H.
    injection H as <-. intro F. elim F. destruct s; reflexivity.
  - destruct b.
    + destruct (click i (groqWidget s)); cbn [bind]; intros [= <-].
      split; [intros _; right; left; eauto|]. intro F. elim F. destruct s; reflexivity.
    + destruct (click i (deepgramWidget s)); cbn [bind]; intros [= <-].
      split; [|intros _; right; left; eauto]. intro F. elim F. destruct s; reflexivity.
  - intros _. split; intros _; right; right; reflexivity.
Qed.

Lemma panels_change_on_their_own_events_witness :
  (exists t v, DeepgramResultReady "hello" 1 = DeepgramResultReady t v) \/
  (exists i, DeepgramResultReady "hello" 1 = WordClicked Backend2 i) \/
  DeepgramResultReady "hello" 1 = ResetClicked.
Proof.
  destruct (panels_change_on_their_own_events processing2 _
              (DeepgramResultReady "hello" 1) eq_refl) as [_ H].
  apply H. vm_compute. discriminate.
Defined.

Lemma set_transcription_empty speed x :
  set_transcription "" speed x
  = Ok (mkWidget (title x) [] (SpeedSeconds speed) AccNA).
Proof. reflexivity. Qed.

(** X19. Reset empties both panels (no words, score text "N/A", speed
    0) and puts the start message in the status line, and does nothing
    else: the recording flag, the recording thread, the audio file, the
    workers and the log of started threads are as before, so a result
    that arrives later is still shown. *)
Theorem reset_clears_the_panels_only (s : MainWindow) :
  exists s',
    step s ResetClicked = Ok s' /\
    groqWidget s' = mkWidget (title (groqWidget s)) [] (SpeedSeconds 0) AccNA /\
    deepgramWidget s' = mkWidget (title (deepgramWidget s)) [] (SpeedSeconds 0) AccNA /\
    statusLabel s' = "Press SPACE to start recording." /\
    recording s' = recording s /\
    recording_thread s' = recording_thread s /\
    frames s' = frames s /\
    disk s' = disk s /\
    groqWorker s' = groqWorker s /\
    deepgramWorker s' = deepgramWorker s /\
    started s' = started s /\
    phase_of s' = phase_of s.
Proof.
  cbn [step]. unfold reset_transcriptions.
  rewrite set_transcription_empty. cbn [bind].
  rewrite set_transcription_empty. cbn [bind].
  eexists. split; [reflexivity|]. destruct s. window_cbv.
  repeat split; reflexivity.
Qed.

(** X20. One uninterrupted cycle from [Idle] with both credentials
    present (SPACE held while chunks are read, released, then the Groq
    result, the end of the Groq worker and the Deepgram result) ends in
    [Idle] again: exactly one capture thread, one Groq worker and one
    Deepgram worker were started, in this order, on the audio just
    recorded, each panel shows the result of its own backend, and the
    status line announces completion. *)
Theorem cycle_returns_to_idle
    (s : MainWindow) (chunks : list (list Byte.byte))
    (t1 : string) (v1 : Q) (t2 : string) (v2 : Q) :
  phase_of s = Idle ->
  Py.strip (groqApiLineEdit s) <> "" ->
  Py.strip (deepgramApiLineEdit s) <> "" ->
  exists s',
    run s (cycle_events chunks t1 v1 t2 v2) = Ok s' /\
    phase_of s' = Idle /\
    started s' =
      (started s ++
       [CaptureThread;
        GroqThread (mkGroq (audio_filename s) (Py.strip (groqApiLineEdit s)));
        DeepgramThread
          (mkDeepgram (audio_filename s) (Py.strip (deepgramApiLineEdit s)))])%list /\
    disk s' = Some (mkWave 1 2 16000 (concat chunks)) /\
    set_transcription t1 v1 (groqWidget s) = Ok (groqWidget s') /\
    set_transcription t2 v2 (deepgramWidget s) = Ok (deepgramWidget s') /\
    statusLabel s'
      = "All transcriptions complete. Press SPACE to start a new recording.".
Proof.
  intros Hidle Hkg Hkd. apply phase_idle in Hidle as (Hr & Hg & Hd).
  destruct (Py.truthy (Py.strip (groqApiLineEdit s))) eqn:Htg;
    [|apply truthy_false in Htg; contradiction].
  destruct (Py.truthy (Py.strip (deepgramApiLineEdit s))) eqn:Htd;
    [|apply truthy_false in Htd; contradiction].
  clear Hkg Hkd.
  destruct s as [rec sev fr af gk dk st gW dW gw dw rt dsk gp dp log].
  cbn [recording groq_pending deepgram_pending groqApiLineEdit deepgramApiLineEdit]
    in Hr, Hg, Hd, Htg, Htd.
  subst rec gp dp. unfold cycle_events.
  cbn [run step bind]. window_cbv. rewrite run_app, run_chunks.
  cbn [bind run step app]. window_cbv. rewrite Htg, Htd. cbv [orb].
  cbn [bind run step]. window_cbv.
  match goal with |- context [handle_groq_result ?a ?b ?x] =>
    destruct (handle_groq_result_total a b x) as (g & Hg1 & E1); rewrite E1
  end.
  cbn [bind]. window_cbv. cbn [bind]. window_cbv.
  match goal with |- context [handle_deepgram_result ?a ?b ?x] =>
    destruct (handle_deepgram_result_total a b x) as (d & Hd1 & E2); rewrite E2
  end.
  cbn [bind]. window_cbv. window_cbv_in Hg1. window_cbv_in Hd1.
  eexists. split; [reflexivity|]. window_cbv.
  split; [reflexivity|]. split; [now rewrite <- !app_assoc|].
  split; [reflexivity|]. split; [exact Hg1|]. split; [exact Hd1 | reflexivity].
Qed.

Lemma cycle_returns_to_idle_witness :
  exists s',
    run keyed (cycle_events [[Byte.x01]] "hello world" (8 # 10) "hello word" (3 # 10))
      = Ok s' /\
    phase_of s' = Idle /\
    started s' =
      (started keyed ++
       [CaptureThread;
        GroqThread (mkGroq (audio_filename keyed) (Py.strip (groqApiLineEdit keyed)));
        DeepgramThread
          (mkDeepgram (audio_filename keyed)
                      (Py.strip (deepgramApiLineEdit keyed)))])%list /\
    disk s' = Some (mkWave 1 2 16000 (concat [[Byte.x01]])) /\
    set_transcription "hello world" (8 # 10) (groqWidget keyed) = Ok (groqWidget s') /\
    set_transcription "hello word" (3 # 10) (deepgramWidget keyed)
      = Ok (deepgramWidget s') /\
    statusLabel s'
      = "All transcriptions complete. Press SPACE to start a new recording.".
Proof.
  apply (cycle_returns_to_idle keyed); vm_compute;
    [reflexivity | discriminate | discriminate].
Defined.

Lemma lstrip_blank s : blank (Py.lstrip s) = blank s.
Proof.
  induction s as [|c s IH]; cbn [Py.lstrip blank]; [reflexivity|].
  destruct (Py.isspace c) eqn:E; cbn [andb blank]; [exact IH | now rewrite E].
Qed.

Lemma rstrip_empty s : Py.rstrip s = "" <-> blank s = true.
Proof.
  induction s as [|c s IH]; cbn [Py.rstrip blank]; [split; reflexivity|].
  destruct (Py.isspace c); cbn [andb].
  - destruct (String.eqb_spec (Py.rstrip s) "") as [E|E].
    + split; [intros _; now apply IH | reflexivity].
    + split; [discriminate|]. intro H. apply IH in H. contradiction.
  - split; discriminate.
Qed.

(** A text strips to the empty string exactly when it holds nothing but
    whitespace. *)
Lemma strip_empty s : Py.strip s = "" <-> blank s = true.
Proof. unfold Py.strip. rewrite rstrip_empty, lstrip_blank. reflexivity. Qed.

(** X21. A credential field that holds nothing but whitespace counts as
    missing: when SPACE is released while recording, transcription is
    refused with "Please enter both API keys!" exactly when one of the
    two fields is empty or blank, and otherwise the Groq worker is
    started. *)
Theorem blank_credentials_count_as_missing (s : MainWindow) :
  recording s = true ->
  let s' := keyReleaseEvent Key_Space s in
  if blank (groqApiLineEdit s) || blank (deepgramApiLineEdit s)
  then statusLabel s' = "Please enter both API keys!" /\
       started s' = started s /\ groqWorker s' = groqWorker s
  else statusLabel s' = "Starting Groq Cloud transcription..." /\
       started s' =
         (started s ++
          [GroqThread (mkGroq (audio_filename s) (Py.strip (groqApiLineEdit s)))])%list.
Proof.
  intro Hrec. cbv zeta.
  assert (Hg : Py.truthy (Py.strip (groqApiLineEdit s)) = negb (blank (groqApiLineEdit s))).
  { destruct (blank (groqApiLineEdit s)) eqn:E.
    - apply strip_empty in E. now apply truthy_false.
    - apply truthy_true. intro H. apply strip_empty in H. congruence. }
  assert (Hd : Py.truthy (Py.strip (deepgramApiLineEdit s))
               = negb (blank (deepgramApiLineEdit s))).
  { destruct (blank (deepgramApiLineEdit s)) eqn:E.
    - apply strip_empty in E. now apply truthy_false.
    - apply truthy_true. intro H. apply strip_empty in H. congruence. }
  destruct s as [rec sev fr af gk dk st gW dW gw dw rt dsk gp dp log].
  cbn [recording groqApiLineEdit deepgramApiLineEdit] in Hrec, Hg, Hd |- *.
  subst rec.
  destruct rt; window_cbv; rewrite Hg, Hd;
    destruct (blank gk), (blank dk); cbv [negb orb]; window_cbv;
    repeat split; reflexivity.
Qed.

Lemma blank_credentials_count_as_missing_witness :
  statusLabel (keyReleaseEvent Key_Space blank_key_holding)
    = "Please enter both API keys!" /\
  started (keyReleaseEvent Key_Space blank_key_holding) = started blank_key_holding /\
  groqWorker (keyReleaseEvent Key_Space blank_key_holding)
    = groqWorker blank_key_holding.
Proof.
  apply (blank_credentials_count_as_missing blank_key_holding). reflexivity.
Defined.

(** ** FlowLayout *)

Import Flow.

Lemma pop_spec {W : Type} (n : nat) (items : list (item W)) :
  (n < length items)%nat ->
  exists it,
    nth_error items n = Some it /\
    pop W n items = Some (it, (firstn n items ++ skipn (S n) items)%list).
Proof.
  revert n; induction items as [|x items IH]; intros [|n] H; cbn [length] in H;
    try lia.
  - exists x. split; reflexivity.
  - destruct (IH n ltac:(lia)) as (it & H1 & H2). exists it.
    split; [exact H1|]. cbn [pop]. rewrite H2. reflexivity.
Qed.

Lemma in_range_nat {W : Type} (index : Z) (items : list (item W)) :
  0 <= index < Py.len items -> (Z.to_nat index < length items)%nat.
Proof. unfold Py.len. lia. Qed.

Lemma range_test {W : Type} (index : Z) (items : list (item W)) :
  (0 <=? index) && (index <? Py.len items) = true <-> 0 <= index < Py.len items.
Proof.
  rewrite andb_true_iff, Z.leb_le, Z.ltb_lt. reflexivity.
Qed.

Lemma itemAt_in_range {W : Type} (index : Z) (l : FlowLayout W) :
  0 <= index < count l ->
  itemAt index l = nth_error (itemList l) (Z.to_nat index).
Proof.
  intro H. unfold itemAt. apply range_test in H. unfold count in *. now rewrite H.
Qed.

Lemma itemAt_out_of_range {W : Type} (index : Z) (l : FlowLayout W) :
  index < 0 \/ count l <= index -> itemAt index l = None.
Proof.
  intro H. unfold itemAt, count in *.
  destruct ((0 <=? index) && (index <? Py.len (itemList l))) eqn:E; [|reflexivity].
  apply range_test in E. lia.
Qed.

(** X22. Items are appended and found again by index: [addItem] raises
    the count by one, the new item is at the last index and the earlier
    items keep theirs; [itemAt] answers [None] below 0 and from the
    count on, and an item at every index in between. *)
Theorem added_item_is_found_at_the_end {W : Type} (l : FlowLayout W) (it : item W) :
  count (addItem it l) = count l + 1 /\
  itemAt (count l) (addItem it l) = Some it /\
  (forall index, 0 <= index < count l ->
     itemAt index (addItem it l) = itemAt index l /\
     exists it', itemAt index l = Some it') /\
  (forall index, index < 0 \/ count l <= index -> itemAt index l = None).
Proof.
  assert (Hc : count (addItem it l) = count l + 1).
  { unfold count, addItem, Py.len. cbn [itemList set_itemList].
    rewrite length_app. cbn [length]. lia. }
  assert (Hpos : 0 <= count l) by (unfold count, Py.len; lia).
  split; [exact Hc|]. split; [|split].
  - rewrite (itemAt_in_range (count l) (addItem it l)) by lia.
    unfold addItem. cbn [itemList set_itemList].
    unfold count, Py.len. rewrite Nat2Z.id.
    rewrite nth_error_app2 by lia. now rewrite Nat.sub_diag.
  - intros index H. rewrite !itemAt_in_range by lia.
    unfold addItem. cbn [itemList set_itemList].
    pose proof (in_range_nat index (itemList l) H) as Hn.
    rewrite nth_error_app1 by exact Hn. split; [reflexivity|].
    destruct (nth_error (itemList l) (Z.to_nat index)) as [x|] eqn:E; [eauto|].
    apply nth_error_None in E. lia.
  - intros index H. now apply itemAt_out_of_range.
Qed.

Lemma added_item_is_found_at_the_end_witness :
  itemAt 0 (addItem one_item (addItem one_item empty_layout))
  = itemAt 0 (addItem one_item empty_layout) /\
  exists it', itemAt 0 (addItem one_item empty_layout) = Some it'.
Proof.
  destruct (added_item_is_found_at_the_end (addItem one_item empty_layout) one_item)
    as (_ & _ & H & _).
  apply (H 0). vm_compute. split; [discriminate | reflexivity].
Defined.

(** X23. [takeAt] outside the list takes nothing and leaves the layout
    as it is; inside, it returns the item at that index and removes
    exactly that one: the count drops by one, the items before keep
    their index and the items after move down by one. *)
Theorem takeAt_removes_one_item {W : Type} (index : Z) (l : FlowLayout W) :
  (index < 0 \/ count l <= index -> takeAt index l = (None, l)) /\
  (0 <= index < count l ->
   exists it l',
     takeAt index l = (Some it, l') /\
     itemAt index l = Some it /\
     count l' = count l - 1 /\
     spacing l' = spacing l /\ contentsMargins l' = contentsMargins l /\
     (forall j, 0 <= j < index -> itemAt j l' = itemAt j l) /\
     (forall j, index <= j -> itemAt j l' = itemAt (j + 1) l)).
Proof.
  split.
  - intro H. unfold takeAt, count in *.
    destruct ((0 <=? index) && (index <? Py.len (itemList l))) eqn:E; [|reflexivity].
    apply range_test in E. lia.
  - intro H. pose proof (in_range_nat index (itemList l) H) as Hn.
    destruct (pop_spec (Z.to_nat index) (itemList l) Hn) as (it & Hnth & Hpop).
    set (rest := (firstn (Z.to_nat index) (itemList l)
                  ++ skipn (S (Z.to_nat index)) (itemList l))%list) in *.
    exists it, (set_itemList W rest l).
    assert (Hlen : length rest = (length (itemList l) - 1)%nat).
    { subst rest. rewrite length_app, length_firstn, length_skipn. lia. }
    assert (Hcount : count (set_itemList W rest l) = count l - 1).
    { unfold count, Py.len in *. cbn [itemList set_itemList]. rewrite Hlen. lia. }
    split.
    { unfold takeAt. pose proof H as H'. apply range_test in H'.
      unfold count in H'. rewrite H', Hpop. reflexivity. }
    split; [rewrite itemAt_in_range by exact H; exact Hnth|].
    split; [exact Hcount|]. split; [reflexivity|]. split; [reflexivity|].
    split.
    + intros j Hj. rewrite !itemAt_in_range by lia.
      cbn [itemList set_itemList]. subst rest.
      rewrite nth_error_app1 by (rewrite length_firstn; lia).
      rewrite nth_error_firstn.
      destruct (Nat.ltb_spec (Z.to_nat j) (Z.to_nat index)); [reflexivity | lia].
    + intros j Hj.
      destruct (Z_lt_ge_dec j (count l - 1)) as [Hlt|Hge].
      * rewrite !itemAt_in_range by lia.
        cbn [itemList set_itemList]. subst rest.
        rewrite nth_error_app2 by (rewrite length_firstn; lia).
        rewrite length_firstn, nth_error_skipn. f_equal. lia.
      * rewrite !itemAt_out_of_range by lia. reflexivity.
Qed.

Lemma takeAt_removes_one_item_witness :
  takeAt 5 (addItem one_item empty_layout) = (None, addItem one_item empty_layout) /\
  exists it l',
    takeAt 0 (addItem one_item empty_layout) = (Some it, l') /\
    itemAt 0 (addItem one_item empty_layout) = Some it /\
    count l' = count (addItem one_item empty_layout) - 1.
Proof.
  split.
  - apply (proj1 (takeAt_removes_one_item 5 (addItem one_item empty_layout))).
    right. vm_compute. discriminate.
  - destruct (proj2 (takeAt_removes_one_item 0 (addItem one_item empty_layout)))
      as (it & l' & H1 & H2 & H3 & _).
    + vm_compute. split; [discriminate | reflexivity].
    + exists it, l'. split; [exact H1|]. split; [exact H2 | exact H3].
Defined.


Lemma takeAt_last {W : Type} (l : FlowLayout W) (items : list (item W)) (x : item W) :
  itemList l = (items ++ [x])%list ->
  takeAt (Py.len items) l = (Some x, set_itemList W items l).
Proof.
  intro E. unfold takeAt. rewrite E.
  assert (Hr : (0 <=? Py.len items) && (Py.len items <? Py.len (items ++ [x])) = true).
  { apply range_test. unfold Py.len. rewrite length_app. cbn [length]. lia. }
  rewrite Hr.
  assert (Hn : (Z.to_nat (Py.len items) < length (items ++ [x]))%nat).
  { unfold Py.len. rewrite length_app. cbn [length]. lia. }
  destruct (pop_spec (Z.to_nat (Py.len items)) (items ++ [x])%list Hn)
    as (it & Hnth & Hpop).
  rewrite Hpop. unfold Py.len in *. rewrite Nat2Z.id in *.
  rewrite nth_error_app2, Nat.sub_diag in Hnth by lia. injection Hnth as <-.
  rewrite firstn_app, Nat.sub_diag, firstn_all, skipn_all2
    by (rewrite length_app; cbn [length]; lia).
  cbn [firstn app]. now rewrite !app_nil_r.
Qed.

Lemma range_succ (n : nat) :
  rev (range (Z.of_nat (S n))) = Z.of_nat n :: rev (range (Z.of_nat n)).
Proof.
  unfold range. rewrite !Nat2Z.id, seq_S, map_app, rev_app_distr. reflexivity.
Qed.

Lemma widgets_of_snoc {W : Type} (items : list (item W)) (x : item W) :
  widgets_of (items ++ [x]) =
  (widgets_of items ++ match item_widget x with Some w => [w] | None => [] end)%list.
Proof.
  induction items as [|y items IH]; cbn [app widgets_of].
  - destruct (item_widget x); reflexivity.
  - rewrite IH. destruct (item_widget y); reflexivity.
Qed.

Lemma clear_from_all {W : Type} (items : list (item W)) :
  forall (l : FlowLayout W) (deleted : list W),
    itemList l = items ->
    clear_from W (rev (range (Py.len items))) l deleted
    = (set_itemList W [] l, (deleted ++ rev (widgets_of items))%list).
Proof.
  induction items as [|x items IH] using rev_ind; intros l deleted E.
  - cbn. rewrite app_nil_r. destruct l. cbn [itemList] in E. subst. reflexivity.
  - unfold Py.len. rewrite length_app. cbn [length]. rewrite Nat.add_1_r.
    rewrite range_succ. cbn [clear_from].
    change (Z.of_nat (length items)) with (Py.len items).
    rewrite (takeAt_last l items x E).
    rewrite (IH (set_itemList W items l)) by reflexivity.
    rewrite widgets_of_snoc, rev_app_distr. cbn [set_itemList spacing contentsMargins
                                                  layout_geometry].
    destruct (item_widget x); cbn [rev app]; rewrite ?app_nil_r, <- ?app_assoc;
      reflexivity.
Qed.

Lemma takeAt_head {W : Type} (l : FlowLayout W) (x : item W) (items : list (item W)) :
  itemList l = x :: items ->
  takeAt 0 l = (Some x, set_itemList W items l).
Proof.
  intro E. unfold takeAt. rewrite E. unfold Py.len. cbn [length].
  replace (0 <? Z.of_nat (S (length items))) with true
    by (symmetry; apply Z.ltb_lt; lia).
  reflexivity.
Qed.

Lemma takeAt_empty {W : Type} (l : FlowLayout W) (index : Z) :
  itemList l = [] -> takeAt index l = (None, l).
Proof.
  intro E. unfold takeAt. rewrite E.
  destruct ((0 <=? index) && (index <? Py.len (@nil (item W)))); [|reflexivity].
  destruct (Z.to_nat index); reflexivity.
Qed.

Lemma del_loop_spec {W : Type} (items : list (item W)) :
  forall (l : FlowLayout W),
    itemList l = items ->
    del_loop (S (length items)) l = Some (set_itemList W [] l) /\
    del_loop (length items) l = None.
Proof.
  induction items as [|x items IH]; intros l E.
  - cbn [length del_loop]. rewrite (takeAt_empty l 0 E).
    split; [|reflexivity]. destruct l. cbn [itemList] in E. subst. reflexivity.
  - destruct (IH (set_itemList W items l) eq_refl) as [H1 H2].
    cbn [length]. split.
    + change (del_loop (S (S (length items))) l)
        with (match takeAt 0 l with
              | (Some _, l') => del_loop (S (length items)) l'
              | (None, l') => Some l'
              end).
      rewrite (takeAt_head l x items E). exact H1.
    + change (del_loop (S (length items)) l)
        with (match takeAt 0 l with
              | (Some _, l') => del_loop (length items) l'
              | (None, l') => Some l'
              end).
      rewrite (takeAt_head l x items E). exact H2.
Qed.

(** X24. Both loops that empty the layout do so. The loop of
    [set_transcription] takes every item, from the last to the first,
    and gives each wrapped widget to [deleteLater] exactly once, in that
    order; the loop of [__del__] ends after one pass more than there are
    items, and not before. Spacing and margins are untouched. *)
Theorem layout_is_emptied {W : Type} (l : FlowLayout W) :
  clear_layout l
  = (mkFlow [] (spacing l) (contentsMargins l) (layout_geometry l),
     rev (widgets_of (itemList l))) /\
  del_loop (S (length (itemList l))) l
  = Some (mkFlow [] (spacing l) (contentsMargins l) (layout_geometry l)) /\
  del_loop (length (itemList l)) l = None.
Proof.
  split.
  - unfold clear_layout, count. now rewrite (clear_from_all (itemList l) l []).
  - exact (del_loop_spec (itemList l) l eq_refl).
Qed.

Lemma expandedTo_fold_ge {W : Type} (items : list (item W)) :
  forall size : QSize,
    let r := fold_left (fun size it => expandedTo size (item_minimumSize it))
                       items size in
    width size <= width r /\ height size <= height r /\
    Forall (fun it => width (item_minimumSize it) <= width r /\
                      height (item_minimumSize it) <= height r) items.
Proof.
  induction items as [|x items IH]; intro size; cbn [fold_left].
  - repeat split; try lia. constructor.
  - destruct (IH (expandedTo size (item_minimumSize x))) as (H1 & H2 & H3).
    cbv zeta in *. cbn [expandedTo width height] in H1, H2.
    split; [lia|]. split; [lia|]. constructor; [lia | exact H3].
Qed.

(** X25. The minimum size of the layout is at least the minimum size of
    each item, in width and in height, plus the margins; for a layout
    without items it is the invalid size (-1, -1) plus the margins. *)
Theorem minimumSize_covers_every_item {W : Type} (l : FlowLayout W) :
  let m := contentsMargins l in
  Forall (fun it =>
            width (item_minimumSize it) + (margin_left m + margin_right m)
              <= width (minimumSize l) /\
            height (item_minimumSize it) + (margin_top m + margin_bottom m)
              <= height (minimumSize l))
         (itemList l) /\
  -1 + (margin_left m + margin_right m) <= width (minimumSize l) /\
  -1 + (margin_top m + margin_bottom m) <= height (minimumSize l) /\
  (itemList l = [] ->
   minimumSize l = mkSize (-1 + (margin_left m + margin_right m))
                          (-1 + (margin_top m + margin_bottom m))).
Proof.
  intro m. unfold minimumSize. fold m. cbn [width height].
  destruct (expandedTo_fold_ge (itemList l) invalid_size) as (H1 & H2 & H3).
  cbv zeta in *. cbn [invalid_size width height] in H1, H2.
  split; [|split; [lia|split; [lia|]]].
  - eapply Forall_impl; [|exact H3]. cbv beta. intros it [Ha Hb]. lia.
  - intros ->. reflexivity.
Qed.

Lemma minimumSize_covers_every_item_witness :
  minimumSize empty_layout = mkSize (-1 + (0 + 0)) (-1 + (0 + 0)).
Proof.
  apply (minimumSize_covers_every_item empty_layout). reflexivity.
Defined.

(** One pass of the loop of [doLayout], unfolded. *)
Lemma doLayout_from_cons {W : Type} rect space testOnly (it : item W) rest x y lineHeight :
  doLayout_from rect space testOnly (it :: rest) x y lineHeight =
  let wrap := (x + width (sizeHint it) + space - space >? rect_right rect)
              && (lineHeight >? 0) in
  let x1 := if wrap then rect_x rect else x in
  let y1 := if wrap then y + lineHeight + space else y in
  let lh1 := if wrap then 0 else lineHeight in
  let it' :=
    if testOnly then it
    else mkItem (item_widget it) (sizeHint it) (item_minimumSize it)
                (mkRect x1 y1 (width (sizeHint it)) (height (sizeHint it))) in
  (it' :: fst (doLayout_from rect space testOnly rest
                 (x1 + width (sizeHint it) + space) y1
                 (Z.max lh1 (height (sizeHint it)))),
   snd (doLayout_from rect space testOnly rest
          (x1 + width (sizeHint it) + space) y1
          (Z.max lh1 (height (sizeHint it))))).
Proof.
  cbn [doLayout_from]. cbv zeta.
  destruct ((x + width (sizeHint it) + space - space >? rect_right rect)
            && (lineHeight >? 0));
    match goal with |- context [doLayout_from ?a ?b ?c ?d ?e ?f ?g] =>
      destruct (doLayout_from a b c d e f g) end;
    reflexivity.
Qed.

Lemma doLayout_from_testOnly {W : Type} rect space (items : list (item W)) :
  forall x y lineHeight,
    fst (doLayout_from rect space true items x y lineHeight) = items /\
    snd (doLayout_from rect space true items x y lineHeight)
    = snd (doLayout_from rect space false items x y lineHeight) /\
    map sizeHint (fst (doLayout_from rect space false items x y lineHeight))
    = map sizeHint items /\
    map item_widget (fst (doLayout_from rect space false items x y lineHeight))
    = map item_widget items.
Proof.
  induction items as [|it items IH]; intros x y lh.
  - cbn. auto.
  - rewrite !doLayout_from_cons. cbv zeta. cbn [fst snd map].
    match goal with |- context [doLayout_from rect space true items ?a ?b ?c] =>
      destruct (IH a b c) as (H1 & H2 & H3 & H4) end.
    rewrite H1, H2, H3, H4. cbn [sizeHint item_widget]. auto.
Qed.

(** X26. Measuring does not move anything: [doLayout] with [testOnly]
    leaves every item as it is and returns the height it returns when
    it does place the items, so [heightForWidth] answers the height that
    [setGeometry] uses for a rectangle of that width at the origin;
    placing changes the geometry of the items only. *)
Theorem measuring_places_nothing {W : Type} (rect : QRect) (l : FlowLayout W) :
  itemList (fst (doLayout rect true l)) = itemList l /\
  snd (doLayout rect true l) = snd (doLayout rect false l) /\
  (forall w, heightForWidth w l = snd (doLayout (mkRect 0 0 w 0) false l)) /\
  map sizeHint (itemList (fst (doLayout rect false l))) = map sizeHint (itemList l) /\
  map item_widget (itemList (fst (doLayout rect false l)))
  = map item_widget (itemList l).
Proof.
  assert (H : forall r b,
             doLayout r b l =
             (set_itemList W
                (fst (doLayout_from r (spacing l) b (itemList l) (rect_x r) (rect_y r) 0)) l,
              snd (doLayout_from r (spacing l) b (itemList l) (rect_x r) (rect_y r) 0))).
  { intros r b. unfold doLayout.
    destruct (doLayout_from r (spacing l) b (itemList l) (rect_x r) (rect_y r) 0).
    reflexivity. }
  unfold heightForWidth. setoid_rewrite H. cbn [fst snd itemList set_itemList].
  destruct (doLayout_from_testOnly rect (spacing l) (itemList l)
              (rect_x rect) (rect_y rect) 0) as (H1 & H2 & H3 & H4).
  split; [exact H1|]. split; [exact H2|]. split; [|split; assumption].
  intro w.
  apply (doLayout_from_testOnly (mkRect 0 0 w 0) (spacing l) (itemList l)).
Qed.

Lemma doLayout_from_placement {W : Type} rect space (items : list (item W)) :
  0 <= space ->
  Forall (fun it => 0 <= width (sizeHint it) /\ 0 < height (sizeHint it)) items ->
  forall x y lineHeight,
    rect_x rect <= x -> rect_y rect <= y -> 0 <= lineHeight ->
    (lineHeight = 0 -> x = rect_x rect) ->
    Forall (fun it =>
              rect_w (geometry it) = width (sizeHint it) /\
              rect_h (geometry it) = height (sizeHint it) /\
              rect_x rect <= rect_x (geometry it) /\
              rect_y rect <= rect_y (geometry it) /\
              (rect_x (geometry it) = rect_x rect \/
               rect_x (geometry it) + rect_w (geometry it) <= rect_right rect))
           (fst (doLayout_from rect space false items x y lineHeight)).
Proof.
  intros Hs Hitems. induction Hitems as [|it items [Hw Hh] _ IH];
    intros x y lh Hx Hy Hlh Hline.
  - constructor.
  - rewrite doLayout_from_cons. cbv zeta. cbn [fst].
    destruct ((x + width (sizeHint it) + space - space >? rect_right rect)
              && (lh >? 0)) eqn:Ewrap.
    + constructor.
      * cbn [geometry sizeHint rect_w rect_h rect_x rect_y]. repeat split; lia.
      * apply IH; lia.
    + constructor.
      * cbn [geometry sizeHint rect_w rect_h rect_x rect_y].
        repeat split; lia.
      * apply IH; lia.
Qed.

(** X27. With a spacing that is not negative and items whose size hints
    have a width that is not negative and a positive height, [doLayout]
    gives every item its size hint as size, puts it at or after the left
    and top edges of the rectangle, and lets it pass the right edge only
    when it is the first of its line. *)
Theorem items_wrap_at_the_right_edge {W : Type} (rect : QRect) (l : FlowLayout W) :
  0 <= spacing l ->
  Forall (fun it => 0 <= width (sizeHint it) /\ 0 < height (sizeHint it))
         (itemList l) ->
  Forall (fun it =>
            rect_w (geometry it) = width (sizeHint it) /\
            rect_h (geometry it) = height (sizeHint it) /\
            rect_x rect <= rect_x (geometry it) /\
            rect_y rect <= rect_y (geometry it) /\
            (rect_x (geometry it) = rect_x rect \/
             rect_x (geometry it) + rect_w (geometry it) <= rect_right rect))
         (itemList (fst (doLayout rect false l))).
Proof.
  intros Hs Hitems. unfold doLayout.
  pose proof (doLayout_from_placement rect (spacing l) (itemList l) Hs Hitems
                (rect_x rect) (rect_y rect) 0) as H.
  destruct (doLayout_from rect (spacing l) false (itemList l)
              (rect_x rect) (rect_y rect) 0) as [items h].
  cbn [fst itemList set_itemList] in *. apply H; lia.
Qed.

Lemma items_wrap_at_the_right_edge_witness :
  Forall (fun it =>
            rect_w (geometry it) = width (sizeHint it) /\
            rect_h (geometry it) = height (sizeHint it) /\
            0 <= rect_x (geometry it) /\
            0 <= rect_y (geometry it) /\
            (rect_x (geometry it) = 0 \/
             rect_x (geometry it) + rect_w (geometry it)
             <= rect_right (mkRect 0 0 100 0)))
         (itemList (fst (doLayout (mkRect 0 0 100 0) false three_items))).
Proof.
  apply (items_wrap_at_the_right_edge (mkRect 0 0 100 0) three_items).
  - vm_compute. discriminate.
  - repeat constructor; vm_compute; congruence.
Defined.

Lemma doLayout_from_height {W : Type} rect space (items : list (item W)) :
  0 <= space ->
  Forall (fun it => 0 <= height (sizeHint it)) items ->
  forall x y lineHeight,
    0 <= lineHeight ->
    y + lineHeight
    <= rect_y rect + snd (doLayout_from rect space false items x y lineHeight) /\
    Forall (fun it =>
              rect_y (geometry it) + rect_h (geometry it)
              <= rect_y rect
                 + snd (doLayout_from rect space false items x y lineHeight))
           (fst (doLayout_from rect space false items x y lineHeight)).
Proof.
  intros Hs Hitems. induction Hitems as [|it items Hh _ IH]; intros x y lh Hlh.
  - cbn. split; [lia | constructor].
  - rewrite doLayout_from_cons. cbv zeta. cbn [fst snd].
    destruct ((x + width (sizeHint it) + space - space >? rect_right rect)
              && (lh >? 0)).
    + match goal with |- context [doLayout_from rect space false items ?a ?b ?c] =>
        destruct (IH a b c ltac:(lia)) as [H1 H2] end.
      split; [lia|]. constructor; [|exact H2].
      cbn [geometry rect_y rect_h]. lia.
    + match goal with |- context [doLayout_from rect space false items ?a ?b ?c] =>
        destruct (IH a b c ltac:(lia)) as [H1 H2] end.
      split; [lia|]. constructor; [|exact H2].
      cbn [geometry rect_y rect_h]. lia.
Qed.

(** X28. With a spacing that is not negative and size hints whose height
    is not negative, the height [doLayout] returns is not negative and
    covers every item it placed: no item ends below the top of the
    rectangle plus that height. *)
Theorem returned_height_covers_every_item {W : Type} (rect : QRect) (l : FlowLayout W) :
  0 <= spacing l ->
  Forall (fun it => 0 <= height (sizeHint it)) (itemList l) ->
  0 <= snd (doLayout rect false l) /\
  Forall (fun it =>
            rect_y (geometry it) + rect_h (geometry it)
            <= rect_y rect + snd (doLayout rect false l))
         (itemList (fst (doLayout rect false l))).
Proof.
  intros Hs Hitems. unfold doLayout.
  pose proof (doLayout_from_height rect (spacing l) (itemList l) Hs Hitems
                (rect_x rect) (rect_y rect) 0 ltac:(lia)) as [H1 H2].
  destruct (doLayout_from rect (spacing l) false (itemList l)
              (rect_x rect) (rect_y rect) 0) as [items h].
  cbn [fst snd itemList set_itemList] in *. split; [lia | exact H2].
Qed.

Lemma returned_height_covers_every_item_witness :
  0 <= snd (doLayout (mkRect 0 0 100 0) false three_items) /\
  Forall (fun it =>
            rect_y (geometry it) + rect_h (geometry it)
            <= 0 + snd (doLayout (mkRect 0 0 100 0) false three_items))
         (itemList (fst (doLayout (mkRect 0 0 100 0) false three_items))).
Proof.
  apply (returned_height_covers_every_item (mkRect 0 0 100 0) three_items).
  - vm_compute. discriminate.
  - repeat constructor; vm_compute; discriminate.
Defined.

(** Three words of 40, 50 and 30 pixels, 6 apart, in a rectangle 100
    pixels wide: the third wraps to a second line. *)
Example three_items_layout :
  map geometry (itemList (fst (doLayout (mkRect 0 0 100 0) false three_items)))
  = [mkRect 0 0 40 20; mkRect 46 0 50 20; mkRect 0 26 30 20] /\
  heightForWidth 100 three_items = 46.
Proof. split; vm_compute; reflexivity. Qed.
